(** * IPv4 notation converter and classful analyser: a shallow embedding

    The two scripts [homework1.py] (decimal/binary dotted notation) and
    [homework2.py] (legacy class, default mask, network and broadcast
    address) are embedded function by function.

    Data model.
    - A Python [str] is a sequence of Unicode code points: [str := list N].
      Literals are written [pystr "..."] which decodes the UTF-8 bytes of a
      Rocq string literal.
    - A Python [int] is a [Z]; [<<], [>>], [&], [|] are [Z.shiftl],
      [Z.shiftr], [Z.land], [Z.lor] (both are two's complement on unbounded
      integers).
    - A call either returns or raises: [outcome A].  [try ... except
      ValueError] is a match on the raised exception.
    - A [dict] literal is an association list in insertion order.

    The built-ins [int(s)], [int(s, 2)], [str(n)], [bin(n)], [str.zfill],
    [str.split] and [str.join] are modelled after CPython 3.  [int] accepts
    what CPython accepts: surrounding white space, a sign, single underscores
    between digits, leading zeros and non-ASCII decimal digits.  The guard on
    the number of digits of recent interpreters (4300 by default) is not
    modelled; it only turns some very long accepted strings into a
    [ValueError], which every caller here handles like any other. *)

From Stdlib Require Import String Ascii.
From Stdlib Require Import ZArith NArith List Bool Lia ZifyBool.
Import ListNotations.

Local Open Scope Z_scope.
Local Open Scope bool_scope.

(** ** Strings *)

Definition char := N.
Definition str := list char.

Module Utf8.

(** Decoder for the literals of this file (well-formed UTF-8 only). *)
Fixpoint decode (bs : list N) : str :=
  match bs with
  | [] => []
  | b :: rest =>
      if (b <? 128)%N then b :: decode rest
      else if (b <? 224)%N then
        match rest with
        | b1 :: rest1 =>
            (N.land b 31 * 64 + N.land b1 63)%N :: decode rest1
        | _ => []
        end
      else if (b <? 240)%N then
        match rest with
        | b1 :: b2 :: rest2 =>
            (N.land b 15 * 4096 + N.land b1 63 * 64 + N.land b2 63)%N
              :: decode rest2
        | _ => []
        end
      else
        match rest with
        | b1 :: b2 :: b3 :: rest3 =>
            (N.land b 7 * 262144 + N.land b1 63 * 4096
             + N.land b2 63 * 64 + N.land b3 63)%N :: decode rest3
        | _ => []
        end
  end.

End Utf8.

Definition pystr (s : string) : str :=
  Utf8.decode (map N_of_ascii (list_ascii_of_string s)).

(** [a == b] on strings *)
Fixpoint str_eqb (a b : str) : bool :=
  match a, b with
  | [], [] => true
  | x :: a', y :: b' => (x =? y)%N && str_eqb a' b'
  | _, _ => false
  end.

Definition dot : str := pystr ".".

(** [s.split(sep)] for a one-character separator: always at least one
    piece, empty pieces are kept. *)
Fixpoint split (sep : char) (s : str) : list str :=
  match s with
  | [] => [[]]
  | c :: s' =>
      if (c =? sep)%N then [] :: split sep s'
      else match split sep s' with
           | [] => [[c]]
           | w :: ws => (c :: w) :: ws
           end
  end.

Definition split_dot (s : str) : list str := split 46%N s.

(** [sep.join(pieces)]. *)
Fixpoint join (sep : str) (pieces : list str) : str :=
  match pieces with
  | [] => []
  | [x] => x
  | x :: rest => x ++ sep ++ join sep rest
  end.

(** [s.zfill(width)]: zeros go after a leading sign. *)
Definition zfill (width : nat) (s : str) : str :=
  if (width <=? length s)%nat then s
  else
    let pad := repeat 48%N (width - length s) in
    match s with
    | c :: rest =>
        if (c =? 43)%N || (c =? 45)%N then c :: pad ++ rest else pad ++ s
    | [] => pad
    end.

(** ** Exceptions *)

Inductive exn : Type := ValueError | IndexError | TypeError.

Inductive outcome (A : Type) : Type :=
| Return (a : A)
| Raise (e : exn).

Arguments Return {A} a.
Arguments Raise {A} e.

Definition bind {A B : Type} (m : outcome A) (k : A -> outcome B) : outcome B :=
  match m with
  | Return a => k a
  | Raise e => Raise e
  end.

Notation "x <- m ;; k" := (bind m (fun x => k))
  (at level 61, m at next level, right associativity).

(** [l[i]] *)
Definition index {A : Type} (l : list A) (i : nat) : outcome A :=
  match nth_error l i with
  | Some a => Return a
  | None => Raise IndexError
  end.

(** ** [int(s)] and [int(s, base)] *)

Module PyInt.

(** White space of the C locale ([Py_ISSPACE]). *)
Definition is_space (c : char) : bool :=
  ((9 <=? c) && (c <=? 13) || (c =? 32))%N.

(** Non-ASCII white space ([Py_UNICODE_ISSPACE] above U+007F). *)
Definition unicode_spaces : list char :=
  [ 0x85; 0xa0; 0x1680; 0x2000; 0x2001; 0x2002; 0x2003; 0x2004; 0x2005;
    0x2006; 0x2007; 0x2008; 0x2009; 0x200a; 0x2028; 0x2029; 0x202f;
    0x205f; 0x3000 ]%N.

Definition unicode_isspace (c : char) : bool :=
  existsb (N.eqb c) unicode_spaces.

(** The zero of every block of decimal digits (Unicode 14); the nine code
    points after each are its digits 1 to 9. *)
Definition decimal_zeros : list char :=
  [ 0x30; 0x660; 0x6f0; 0x7c0; 0x966; 0x9e6; 0xa66; 0xae6; 0xb66; 0xbe6;
    0xc66; 0xce6; 0xd66; 0xde6; 0xe50; 0xed0; 0xf20; 0x1040; 0x1090;
    0x17e0; 0x1810; 0x1946; 0x19d0; 0x1a80; 0x1a90; 0x1b50; 0x1bb0;
    0x1c40; 0x1c50; 0xa620; 0xa8d0; 0xa900; 0xa9d0; 0xa9f0; 0xaa50;
    0xabf0; 0xff10; 0x104a0; 0x10d30; 0x11066; 0x110f0; 0x11136; 0x111d0;
    0x112f0; 0x11450; 0x114d0; 0x11650; 0x116c0; 0x11730; 0x118e0;
    0x11950; 0x11c50; 0x11d50; 0x11da0; 0x16a60; 0x16ac0; 0x16b50;
    0x1d7ce; 0x1d7d8; 0x1d7e2; 0x1d7ec; 0x1d7f6; 0x1e140; 0x1e2f0;
    0x1e950; 0x1fbf0 ]%N.

(** [Py_UNICODE_TODECIMAL] *)
Definition unicode_todecimal (c : char) : option N :=
  match find (fun z => (z <=? c) && (c <? z + 10))%N decimal_zeros with
  | Some z => Some (c - z)%N
  | None => None
  end.

(** A string with a non-ASCII character is first rewritten to ASCII: white
    space becomes a blank, a decimal digit its ASCII digit, and the string
    is cut at the first character that is neither, which becomes [?]. *)
Fixpoint transform (s : str) : str :=
  match s with
  | [] => []
  | c :: s' =>
      if (c <? 127)%N then c :: transform s'
      else if unicode_isspace c then 32%N :: transform s'
      else match unicode_todecimal c with
           | Some d => (48 + d)%N :: transform s'
           | None => [63%N]
           end
  end.

Definition to_ascii (s : str) : str :=
  if forallb (fun c => (c <? 128)%N) s then s else transform s.

(** [_PyLong_DigitValue]: 37 for a character that is no digit in any base. *)
Definition digit_value (c : char) : Z :=
  if ((48 <=? c) && (c <=? 57))%N then Z.of_N c - 48
  else if ((97 <=? c) && (c <=? 122))%N then Z.of_N c - 87
  else if ((65 <=? c) && (c <=? 90))%N then Z.of_N c - 55
  else 37.

Fixpoint skip_spaces (s : str) : str :=
  match s with
  | c :: s' => if is_space c then skip_spaces s' else s
  | [] => []
  end.

(** The digits and underscores in front of [s]: the value read so far, the
    number of digits, the last character read and what is left.  [None] on
    two underscores in a row. *)
Fixpoint scan (base : Z) (s : str) (prev : char) (acc : Z) (digits : nat)
  : option (Z * nat * char * str) :=
  match s with
  | [] => Some (acc, digits, prev, [])
  | c :: s' =>
      if (c =? 95)%N then
        if (prev =? 95)%N then None else scan base s' c acc digits
      else if digit_value c <? base then
        scan base s' c (acc * base + digit_value c) (S digits)
      else Some (acc, digits, prev, s)
  end.

(** An optional sign in front of the digits. *)
Definition read_sign (s : str) : Z * str :=
  match s with
  | c :: s' =>
      if (c =? 43)%N then (1, s')
      else if (c =? 45)%N then (-1, s')
      else (1, s)
  | [] => (1, s)
  end.

(** The prefix [0x], [0o] or [0b] of the given base, and one underscore
    after it. *)
Definition skip_prefix (base : Z) (s : str) : str :=
  match s with
  | c0 :: c1 :: s' =>
      if (c0 =? 48)%N &&
         ((base =? 16) && ((c1 =? 120)%N || (c1 =? 88)%N)
          || (base =? 8) && ((c1 =? 111)%N || (c1 =? 79)%N)
          || (base =? 2) && ((c1 =? 98)%N || (c1 =? 66)%N))
      then match s' with
           | c2 :: s'' => if (c2 =? 95)%N then s'' else s'
           | [] => s'
           end
      else s
  | _ => s
  end.

(** [PyLong_FromString] for an explicit base: white space, sign, prefix,
    digits with single underscores between them, white space. *)
Definition from_string (base : Z) (s : str) : outcome Z :=
  let '(sign, s) := read_sign (skip_spaces s) in
  match skip_prefix base s with
  | (c :: _) as s =>
      if (c =? 95)%N then Raise ValueError else
      match scan base s 0%N 0 0 with
      | None => Raise ValueError
      | Some (v, digits, prev, rest) =>
          if (prev =? 95)%N then Raise ValueError
          else if (digits =? 0)%nat then Raise ValueError
          else match skip_spaces rest with
               | [] => Return (sign * v)
               | _ :: _ => Raise ValueError
               end
      end
  | [] => Raise ValueError
  end.

End PyInt.

(** [int(s)] *)
Definition int (s : str) : outcome Z := PyInt.from_string 10 (PyInt.to_ascii s).

(** [int(s, 2)] *)
Definition int2 (s : str) : outcome Z := PyInt.from_string 2 (PyInt.to_ascii s).

(** ** [str(n)] and [bin(n)] *)

Definition digit_char (d : Z) : char := Z.to_N (48 + d).

(** Digits of [n >= 0] in [base], most significant first, in front of [acc];
    [fuel] bounds the number of digits. *)
Fixpoint digits_aux (fuel : nat) (base n : Z) (acc : str) : str :=
  match fuel with
  | O => acc
  | S fuel' =>
      let acc' := digit_char (n mod base) :: acc in
      if n / base =? 0 then acc' else digits_aux fuel' base (n / base) acc'
  end.

Definition digits (base n : Z) : str :=
  digits_aux (S (Z.to_nat (Z.log2 n))) base n [].

(** [str(n)] *)
Definition str_of_int (n : Z) : str :=
  if n <? 0 then 45%N :: digits 10 (- n) else digits 10 n.

(** [bin(n)] *)
Definition bin (n : Z) : str :=
  if n <? 0 then pystr "-0b" ++ digits 2 (- n) else pystr "0b" ++ digits 2 n.

(** Evaluation of a list comprehension whose element expression may raise. *)
Fixpoint map_outcome {A B : Type} (f : A -> outcome B) (l : list A)
  : outcome (list B) :=
  match l with
  | [] => Return []
  | a :: l' => b <- f a ;; bs <- map_outcome f l' ;; Return (b :: bs)
  end.

(** [all(bit in '01' for bit in octet)] *)
Definition all_bits (octet : str) : bool :=
  forallb (fun bit => existsb (N.eqb bit) (pystr "01")) octet.

(** ** homework1.py *)

Module Homework1.

Definition err_four_octets : str :=
  pystr "Ошибка: IP-адрес должен содержать 4 октета, разделенных точкой.".

Definition err_range (octet : str) : str :=
  pystr "Ошибка: Каждый октет должен быть числом от 0 до 255. Получено: "
  ++ octet.

Definition err_not_a_number (octet : str) : str :=
  pystr "Ошибка: Невозможно преобразовать '" ++ octet ++ pystr "' в число.".

Definition err_binary_octet (octet : str) : str :=
  pystr "Ошибка: Каждый двоичный октет должен содержать ровно 8 бит (0 или 1). Получено: "
  ++ octet.

(** The [for] loop of [decimal_to_binary]; [binary_octets] is the list
    built so far. *)
Fixpoint decimal_to_binary_loop (octets binary_octets : list str)
  : outcome str :=
  match octets with
  | [] => Return (join dot binary_octets)
  | octet :: rest =>
      match int octet with
      | Return decimal_octet =>
          if (decimal_octet <? 0) || (decimal_octet >? 255) then
            Return (err_range octet)
          else
            let binary_octet := skipn 2 (bin decimal_octet) in
            let binary_octet := zfill 8 binary_octet in
            decimal_to_binary_loop rest (binary_octets ++ [binary_octet])
      | Raise ValueError => Return (err_not_a_number octet)
      | Raise e => Raise e
      end
  end.

Definition decimal_to_binary (ip_address : str) : outcome str :=
  let octets := split_dot ip_address in
  if negb (length octets =? 4)%nat then Return err_four_octets
  else decimal_to_binary_loop octets [].

(** The [for] loop of [binary_to_decimal]. *)
Fixpoint binary_to_decimal_loop (octets decimal_octets : list str)
  : outcome str :=
  match octets with
  | [] => Return (join dot decimal_octets)
  | octet :: rest =>
      if negb (all_bits octet) || negb (length octet =? 8)%nat then
        Return (err_binary_octet octet)
      else
        decimal_octet <- int2 octet ;;
        binary_to_decimal_loop rest (decimal_octets ++ [str_of_int decimal_octet])
  end.

Definition binary_to_decimal (ip_address : str) : outcome str :=
  let octets := split_dot ip_address in
  if negb (length octets =? 4)%nat then Return err_four_octets
  else binary_to_decimal_loop octets [].

(** The [for] loop of [validate_ip_format], on the two flags. *)
Fixpoint validate_ip_format_loop (octets : list str) (is_decimal is_binary : bool)
  : outcome (bool * bool) :=
  match octets with
  | [] => Return (is_decimal, is_binary)
  | octet :: rest =>
      is_decimal' <-
        match int octet with
        | Return decimal_value =>
            if (decimal_value <? 0) || (decimal_value >? 255)
            then Return false else Return is_decimal
        | Raise ValueError => Return false
        | Raise e => Raise e
        end ;;
      let is_binary' :=
        if negb (all_bits octet) || negb (length octet =? 8)%nat
        then false else is_binary in
      validate_ip_format_loop rest is_decimal' is_binary'
  end.

Definition validate_ip_format (ip_address : str) : outcome str :=
  let octets := split_dot ip_address in
  if negb (length octets =? 4)%nat then Return (pystr "invalid")
  else
    flags <- validate_ip_format_loop octets true true ;;
    let '(is_decimal, is_binary) := flags in
    if is_decimal then Return (pystr "decimal")
    else if is_binary then Return (pystr "binary")
    else Return (pystr "invalid").

(** The body of the loop of [main] once the exit keywords are excluded: the
    strings handed to [print] for [user_input], in order. *)
Definition main_step (user_input : str) : outcome (list str) :=
  ip_format <- validate_ip_format user_input ;;
  if str_eqb ip_format (pystr "decimal") then
    binary_ip <- decimal_to_binary user_input ;;
    Return [ 10%N :: pystr "Десятичная запись: " ++ user_input;
             pystr "Двоичная запись:   " ++ binary_ip ]
  else if str_eqb ip_format (pystr "binary") then
    decimal_ip <- binary_to_decimal user_input ;;
    Return [ 10%N :: pystr "Двоичная запись:   " ++ user_input;
             pystr "Десятичная запись: " ++ decimal_ip ]
  else
    Return
      [ pystr "Ошибка: Введенный IP-адрес имеет неверный формат.";
        pystr "IP-адрес должен содержать 4 октета, разделенных точкой.";
        pystr "Для десятичного формата: каждый октет должен быть числом от 0 до 255.";
        pystr "Для двоичного формата: каждый октет должен содержать 8 бит (0 или 1)." ].

End Homework1.

(** ** homework2.py *)

Module Homework2.

Inductive value : Type :=
| VStr (s : str)
| VInt (n : Z).

Definition dict := list (str * value).

(** [d.get(key)] / [key in d] *)
Fixpoint dict_get (d : dict) (key : str) : option value :=
  match d with
  | [] => None
  | (k, v) :: d' => if str_eqb k key then Some v else dict_get d' key
  end.

Fixpoint validate_ip_loop (octets : list str) : outcome bool :=
  match octets with
  | [] => Return true
  | octet :: rest =>
      match int octet with
      | Return value =>
          if (value <? 0) || (value >? 255) then Return false
          else validate_ip_loop rest
      | Raise ValueError => Return false
      | Raise e => Raise e
      end
  end.

Definition validate_ip (ip_address : str) : outcome bool :=
  let octets := split_dot ip_address in
  if negb (length octets =? 4)%nat then Return false
  else validate_ip_loop octets.

Definition class_unknown : str := pystr "Неизвестный".

Definition determine_ip_class (ip_address : str) : outcome (str * Z) :=
  octet <- index (split_dot ip_address) 0 ;;
  first_octet <- int octet ;;
  if (1 <=? first_octet) && (first_octet <=? 126) then
    Return (pystr "A", 8)
  else if (128 <=? first_octet) && (first_octet <=? 191) then
    Return (pystr "B", 16)
  else if (192 <=? first_octet) && (first_octet <=? 223) then
    Return (pystr "C", 24)
  else if (224 <=? first_octet) && (first_octet <=? 239) then
    Return (pystr "D", 0)
  else if (240 <=? first_octet) && (first_octet <=? 255) then
    Return (pystr "E", 0)
  else if first_octet =? 127 then
    Return (pystr "Loopback", 8)
  else
    Return (class_unknown, 0).

(** The slice [binary_mask[i:i+8]] is [firstn 8 (skipn i binary_mask)]. *)
Definition get_subnet_mask (prefix : Z) : outcome str :=
  let binary_mask :=
    repeat 49%N (Z.to_nat prefix) ++ repeat 48%N (Z.to_nat (32 - prefix)) in
  let octets :=
    map (fun i => firstn 8 (skipn i binary_mask)) [0; 8; 16; 24]%nat in
  decimal_octets <-
    map_outcome (fun octet => n <- int2 octet ;; Return (str_of_int n)) octets ;;
  Return (join dot decimal_octets).

(** [[(n >> 24) & 255, (n >> 16) & 255, (n >> 8) & 255, n & 255]] *)
Definition octets_of (n : Z) : list Z :=
  [ Z.land (Z.shiftr n 24) 255; Z.land (Z.shiftr n 16) 255;
    Z.land (Z.shiftr n 8) 255; Z.land n 255 ].

(** For [prefix > 32] the power [2**(32 - prefix)] is a float, so is
    [mask_int], and [ip_int & mask_int] raises [TypeError]. *)
Definition get_network_range (ip_address : str) (prefix : Z)
  : outcome (str * str) :=
  octets <- map_outcome int (split_dot ip_address) ;;
  o0 <- index octets 0 ;;
  o1 <- index octets 1 ;;
  o2 <- index octets 2 ;;
  o3 <- index octets 3 ;;
  let ip_int := Z.shiftl o0 24 + Z.shiftl o1 16 + Z.shiftl o2 8 + o3 in
  if 32 <? prefix then Raise TypeError
  else
    let mask_int := (2 ^ 32 - 1) - (2 ^ (32 - prefix) - 1) in
    let network_int := Z.land ip_int mask_int in
    let broadcast_int := Z.lor network_int (2 ^ (32 - prefix) - 1) in
    let network_address := join dot (map str_of_int (octets_of network_int)) in
    let broadcast_address :=
      join dot (map str_of_int (octets_of broadcast_int)) in
    Return (network_address, broadcast_address).

Definition invalid_format : dict :=
  [(pystr "error", VStr (pystr "Неверный формат IP-адреса"))].

Definition analyze_ip (ip_address : str) : outcome dict :=
  valid <- validate_ip ip_address ;;
  if negb valid then Return invalid_format
  else
    cls <- determine_ip_class ip_address ;;
    let '(ip_class, default_prefix) := cls in
    if existsb (str_eqb ip_class) [pystr "D"; pystr "E"; class_unknown] then
      Return
        [ (pystr "ip_address", VStr ip_address);
          (pystr "ip_class", VStr ip_class);
          (pystr "note",
           VStr (pystr "Для IP-адресов класса " ++ ip_class
                 ++ pystr " не применяется стандартная маска подсети")) ]
    else
      subnet_mask <- get_subnet_mask default_prefix ;;
      range <- get_network_range ip_address default_prefix ;;
      let '(network_address, broadcast_address) := range in
      let num_hosts := 2 ^ (32 - default_prefix) - 2 in
      Return
        [ (pystr "ip_address", VStr ip_address);
          (pystr "ip_class", VStr ip_class);
          (pystr "network_prefix", VInt default_prefix);
          (pystr "subnet_mask", VStr subnet_mask);
          (pystr "network_address", VStr network_address);
          (pystr "broadcast_address", VStr broadcast_address);
          (pystr "usable_hosts", VInt num_hosts) ].

(** [f"{x}"] for a value of the dictionary. *)
Definition format_value (v : value) : str :=
  match v with
  | VStr s => s
  | VInt n => str_of_int n
  end.

(** The separator ["=" * 60]. *)
Definition separator : str := repeat 61%N 60.

(** A run of [print(f"<label>{ip_info[key]}")] statements: the strings
    printed after [out], and the key of the [KeyError] that stopped the run,
    if there was one. *)
Fixpoint print_fields (ip_info : dict) (fields : list (str * str))
    (out : list str) : list str * option str :=
  match fields with
  | [] => (out, None)
  | (label, key) :: rest =>
      match dict_get ip_info key with
      | Some v => print_fields ip_info rest (out ++ [label ++ format_value v])
      | None => (out, Some key)
      end
  end.

(** [display_ip_info]: the strings handed to [print], in order, and the key
    of the [KeyError] raised, if any. *)
Definition display_ip_info (ip_info : dict) : list str * option str :=
  let out := [10%N :: separator] in
  match dict_get ip_info (pystr "error") with
  | Some e => (out ++ [pystr "Ошибка: " ++ format_value e], None)
  | None =>
      match dict_get ip_info (pystr "note") with
      | Some _ =>
          print_fields ip_info
            [ (pystr "IP-адрес: ", pystr "ip_address");
              (pystr "Класс IP: ", pystr "ip_class");
              (pystr "Примечание: ", pystr "note") ] out
      | None =>
          match
            print_fields ip_info
              [ (pystr "IP-адрес:              ", pystr "ip_address");
                (pystr "Класс IP:              ", pystr "ip_class");
                (pystr "Префикс сети:          /", pystr "network_prefix");
                (pystr "Маска подсети:         ", pystr "subnet_mask");
                (pystr "Начальный адрес сети:  ", pystr "network_address");
                (pystr "Конечный адрес сети:   ", pystr "broadcast_address");
                (pystr "Количество хостов:     ", pystr "usable_hosts") ] out
          with
          | (out', None) => (out' ++ [separator], None)
          | (out', Some key) => (out', Some key)
          end
      end
  end.

(** One turn of the loops of [main]: [display_ip_info(analyze_ip(ip))]. *)
Definition analyze_and_display (ip_address : str)
  : outcome (list str * option str) :=
  ip_info <- analyze_ip ip_address ;;
  Return (display_ip_info ip_info).

End Homework2.

Import Homework1 Homework2.

(** * Vocabulary of the properties *)

(** No dot in [x]. *)
Definition no_dot (x : str) : bool := forallb (fun c => negb (c =? 46)%N) x.

(** An ASCII digit. *)
Definition dec_digit (c : char) : bool := ((48 <=? c) && (c <=? 57))%N.

(** The value [scan] accumulates over a run of digits. *)
Definition value_of (base acc : Z) (ds : str) : Z :=
  fold_left (fun a c => a * base + PyInt.digit_value c) ds acc.

(** The eight binary digits [decimal_to_binary] writes for an octet. *)
Definition octet_bits (v : Z) : str := zfill 8 (skipn 2 (bin v)).

(** The range test of the validators: not ([v < 0] or [v > 255]). *)
Definition octet_range (v : Z) : bool := negb ((v <? 0) || (v >? 255)).

(** The test of [binary_to_decimal] on an octet: only binary digits, and
    eight of them. *)
Definition is_binary_octet (o : str) : bool :=
  negb (negb (all_bits o) || negb (length o =? 8)%nat).

(** What the decimal check of the three validators accepts. *)
Definition is_decimal_octet (o : str) : bool :=
  match int o with
  | Return v => octet_range v
  | Raise _ => false
  end.

(** The number an accepted octet denotes in decimal, and in binary. *)
Definition int_value (o : str) : Z :=
  match int o with Return v => v | Raise _ => 0 end.

Definition int2_value (o : str) : Z :=
  match int2 o with Return v => v | Raise _ => 0 end.

(** The message [decimal_to_binary] returns for a rejected octet. *)
Definition decimal_error (o : str) : str :=
  match int o with
  | Return _ => Homework1.err_range o
  | Raise _ => Homework1.err_not_a_number o
  end.

(** Four octets, each an accepted decimal number from 0 to 255. *)
Definition well_formed_decimal (s : str) : bool :=
  (length (split_dot s) =? 4)%nat && forallb is_decimal_octet (split_dot s).

(** Four octets, each exactly eight binary digits. *)
Definition well_formed_binary (s : str) : bool :=
  (length (split_dot s) =? 4)%nat && forallb is_binary_octet (split_dot s).

(** The address [a.b.c.d] as a number. *)
Definition ip_number (a b c d : Z) : Z := a * 2 ^ 24 + b * 2 ^ 16 + c * 2 ^ 8 + d.

(** The mask of [p] leading 1-bits in a 32-bit word. *)
Definition prefix_mask (p : Z) : Z := Z.shiftl (Z.ones p) (32 - p).

(** Bitwise NOT within 32 bits. *)
Definition not32 (m : Z) : Z := Z.land (Z.lnot m) (Z.ones 32).

(** Dotted-decimal notation of a 32-bit number. *)
Definition dotted_quad (n : Z) : str :=
  join dot (map str_of_int
              [n / 2 ^ 24 mod 256; n / 2 ^ 16 mod 256; n / 2 ^ 8 mod 256; n mod 256]).

(** The default prefix length of the classes that have one. *)
Definition class_prefix (cls : str) : option Z :=
  if str_eqb cls (pystr "A") then Some 8
  else if str_eqb cls (pystr "B") then Some 16
  else if str_eqb cls (pystr "C") then Some 24
  else if str_eqb cls (pystr "Loopback") then Some 8
  else None.

(** The class names the claims speak of. *)
Definition legacy_classes : list str :=
  [pystr "A"; pystr "B"; pystr "C"; pystr "D"; pystr "E"; pystr "Loopback"].

(** The result of [analyze_ip] for a class without a standard mask. *)
Definition note_result (s cls : str) : dict :=
  [ (pystr "ip_address", VStr s);
    (pystr "ip_class", VStr cls);
    (pystr "note",
     VStr (pystr "Для IP-адресов класса " ++ cls
           ++ pystr " не применяется стандартная маска подсети")) ].

(** The result of [analyze_ip] for a class with prefix [p], in terms of the
    address as a number. *)
Definition network_result (s cls : str) (p ip : Z) : dict :=
  let network := Z.land ip (prefix_mask p) in
  [ (pystr "ip_address", VStr s);
    (pystr "ip_class", VStr cls);
    (pystr "network_prefix", VInt p);
    (pystr "subnet_mask", VStr (dotted_quad (prefix_mask p)));
    (pystr "network_address", VStr (dotted_quad network));
    (pystr "broadcast_address",
     VStr (dotted_quad (Z.lor network (not32 (prefix_mask p)))));
    (pystr "usable_hosts", VInt (2 ^ (32 - p) - 2)) ].

(** [key in d] *)
Definition dict_has (d : dict) (key : str) : bool :=
  match dict_get d key with
  | Some _ => true
  | None => false
  end.

(** * Properties *)

(** ** Splitting and joining *)

Lemma dot_char : dot = [46%N].
Proof. reflexivity. Qed.

Lemma split_no_dot (x : str) : no_dot x = true -> split_dot x = [x].
Proof.
  unfold split_dot.
  induction x as [|c x IH]; simpl; [reflexivity|].
  intros H. apply andb_prop in H. destruct H as [Hc Hx].
  apply negb_true_iff in Hc. rewrite Hc, (IH Hx). reflexivity.
Qed.

Lemma split_app_dot (x rest : str) :
  no_dot x = true -> split_dot (x ++ 46%N :: rest) = x :: split_dot rest.
Proof.
  unfold split_dot.
  induction x as [|c x IH]; simpl; intros H.
  - reflexivity.
  - apply andb_prop in H. destruct H as [Hc Hx].
    apply negb_true_iff in Hc. rewrite Hc, (IH Hx). reflexivity.
Qed.

Lemma split_join4 (a b c d : str) :
  no_dot a = true -> no_dot b = true -> no_dot c = true -> no_dot d = true ->
  split_dot (join dot [a; b; c; d]) = [a; b; c; d].
Proof.
  intros Ha Hb Hc Hd. rewrite dot_char. cbn [join app].
  rewrite (split_app_dot a), (split_app_dot b), (split_app_dot c) by assumption.
  now rewrite (split_no_dot d).
Qed.

(** ** Printing and reading numbers *)

Module PyIntFacts.
Import PyInt.

Lemma dec_digit_bounds (c : char) :
  dec_digit c = true -> (48 <= c <= 57)%N.
Proof.
  unfold dec_digit. intros H. apply andb_prop in H. destruct H as [H1 H2].
  apply N.leb_le in H1, H2. lia.
Qed.

Lemma dec_digit_value (c : char) :
  dec_digit c = true -> digit_value c = Z.of_N c - 48.
Proof. unfold digit_value, dec_digit. now intros ->. Qed.

Lemma dec_digit_not_space (c : char) : dec_digit c = true -> is_space c = false.
Proof.
  intros H. apply dec_digit_bounds in H. unfold is_space.
  destruct (N.leb_spec c 13); destruct (N.eqb_spec c 32);
    rewrite ?andb_false_r; simpl; try reflexivity; lia.
Qed.

Lemma dec_digit_neq (c k : char) :
  dec_digit c = true -> (k < 48 \/ 57 < k)%N -> (c =? k)%N = false.
Proof. intros H Hk. apply dec_digit_bounds in H. apply N.eqb_neq. lia. Qed.

Lemma dec_digit_no_dot (x : str) : forallb dec_digit x = true -> no_dot x = true.
Proof.
  unfold no_dot. induction x as [|c x IH]; simpl; [reflexivity|].
  intros H. apply andb_prop in H. destruct H as [Hc Hx].
  rewrite (dec_digit_neq c 46%N Hc) by lia. simpl. auto.
Qed.

Lemma dec_digit_ascii (x : str) :
  forallb dec_digit x = true -> to_ascii x = x.
Proof.
  intros H. unfold to_ascii.
  replace (forallb (fun c => (c <? 128)%N) x) with true; [reflexivity|].
  symmetry. rewrite forallb_forall in *. intros c Hc.
  specialize (H c Hc). apply dec_digit_bounds in H. apply N.ltb_lt. lia.
Qed.

Lemma last_cons (ds : str) : forall c p : char, last (c :: ds) p = last ds c.
Proof.
  induction ds as [|d ds IH]; intros c p; [reflexivity|].
  change (last (c :: d :: ds) p) with (last (d :: ds) p).
  now rewrite (IH d p), (IH d c).
Qed.

(** A run of digits of [base] is read in one go. *)
Lemma scan_digits (base : Z) (ds rest : str) :
  forall prev acc n,
    forallb (fun c => dec_digit c && (digit_value c <? base)) ds = true ->
    scan base (ds ++ rest) prev acc n
    = scan base rest (last ds prev) (value_of base acc ds) (n + length ds)%nat.
Proof.
  induction ds as [|c ds IH]; intros prev acc n H; simpl.
  - now rewrite Nat.add_0_r.
  - simpl in H. apply andb_prop in H. destruct H as [Hc Hds].
    apply andb_prop in Hc. destruct Hc as [Hd Hb].
    rewrite (dec_digit_neq c 95%N Hd) by lia. rewrite Hb.
    rewrite (IH c _ _ Hds), <- (last_cons ds c prev).
    f_equal. lia.
Qed.

Lemma last_dec_digit (ds : str) (c : char) :
  forallb dec_digit (c :: ds) = true -> dec_digit (last (c :: ds) 0%N) = true.
Proof.
  revert c. induction ds as [|d ds IH]; intros c H.
  - simpl in *. now rewrite andb_true_r in H.
  - change (last (c :: d :: ds) 0%N) with (last (d :: ds) 0%N).
    apply IH. simpl in H. apply andb_prop in H. tauto.
Qed.

(** A non-empty string of ASCII digits below [base] is accepted with its
    positional value, for base 2 and base 10. *)
Lemma from_string_digits (base : Z) (c : char) (ds : str) :
  base = 2 \/ base = 10 ->
  forallb (fun c => dec_digit c && (digit_value c <? base)) (c :: ds) = true ->
  (base = 2 -> match ds with d :: _ => (d =? 98)%N || (d =? 66)%N = false
                         | [] => True end) ->
  from_string base (c :: ds) = Return (value_of base 0 (c :: ds)).
Proof.
  intros Hbase H Hpre.
  assert (Hall : forallb dec_digit (c :: ds) = true).
  { rewrite forallb_forall in *. intros x Hx. specialize (H x Hx).
    apply andb_prop in H. tauto. }
  assert (Hc : dec_digit c = true).
  { simpl in Hall. apply andb_prop in Hall. tauto. }
  assert (Hs : skip_prefix base (c :: ds) = c :: ds).
  { unfold skip_prefix. destruct ds as [|d ds']; [reflexivity|].
    destruct Hbase as [-> | ->].
    - specialize (Hpre eq_refl). simpl in Hpre. simpl.
      rewrite Hpre. now rewrite andb_false_r.
    - simpl. now rewrite andb_false_r. }
  unfold from_string, read_sign.
  cbn [skip_spaces]. rewrite (dec_digit_not_space c Hc).
  rewrite (dec_digit_neq c 43%N Hc), (dec_digit_neq c 45%N Hc) by lia.
  rewrite Hs.
  rewrite (dec_digit_neq c 95%N Hc) by lia.
  pose proof (scan_digits base (c :: ds) [] 0%N 0 0%nat H) as Hscan.
  rewrite app_nil_r in Hscan. rewrite Hscan.
  cbn [scan].
  pose proof (last_dec_digit ds c Hall) as Hl.
  rewrite (dec_digit_neq _ 95%N Hl) by lia.
  cbn [length Nat.add Nat.eqb skip_spaces].
  f_equal. lia.
Qed.

(** [int] only ever raises [ValueError]. *)
Lemma from_string_raises (base : Z) (s : str) (e : exn) :
  from_string base s = Raise e -> e = ValueError.
Proof.
  unfold from_string.
  destruct (read_sign (skip_spaces s)) as [sign s1].
  destruct (skip_prefix base s1) as [|c s2]; [congruence|].
  destruct (c =? 95)%N; [congruence|].
  destruct (scan base (c :: s2) 0%N 0 0) as [[[[v n] prev] rest]|]; [|congruence].
  destruct (prev =? 95)%N; [congruence|].
  destruct (n =? 0)%nat; [congruence|].
  destruct (skip_spaces rest); congruence.
Qed.

Lemma value_of_app (base acc : Z) (l1 l2 : str) :
  value_of base acc (l1 ++ l2) = value_of base (value_of base acc l1) l2.
Proof. apply fold_left_app. Qed.

Lemma digit_char_dec (d : Z) :
  0 <= d < 10 -> dec_digit (digit_char d) = true /\ digit_value (digit_char d) = d.
Proof.
  intros Hd. unfold digit_char.
  assert (Hb : (48 <= Z.to_N (48 + d) <= 57)%N) by lia.
  assert (Hdec : dec_digit (Z.to_N (48 + d)) = true).
  { unfold dec_digit. apply andb_true_intro. split; apply N.leb_le; lia. }
  split; [exact Hdec|]. rewrite (dec_digit_value _ Hdec). lia.
Qed.

Lemma digits_aux_app (fuel : nat) (base : Z) :
  forall n acc, digits_aux fuel base n acc = digits_aux fuel base n [] ++ acc.
Proof.
  induction fuel as [|fuel IH]; intros n acc; simpl; [reflexivity|].
  destruct (n / base =? 0); [reflexivity|].
  rewrite (IH _ (_ :: acc)), (IH _ [_]), <- app_assoc. reflexivity.
Qed.

Section Digits.

Variable base : Z.
Hypothesis base_range : 2 <= base <= 10.

Lemma digits_aux_digits (fuel : nat) :
  forall n, 0 <= n ->
    forallb (fun c => dec_digit c && (digit_value c <? base))
            (digits_aux fuel base n []) = true.
Proof.
  induction fuel as [|fuel IH]; intros n Hn; simpl; [reflexivity|].
  assert (Hm : 0 <= n mod base < base) by (apply Z.mod_pos_bound; lia).
  assert (Hd : dec_digit (digit_char (n mod base))
               && (digit_value (digit_char (n mod base)) <? base) = true).
  { destruct (digit_char_dec (n mod base)) as [-> ->]; [lia|].
    apply Z.ltb_lt. lia. }
  destruct (n / base =? 0).
  - simpl. now rewrite Hd.
  - rewrite digits_aux_app, forallb_app. rewrite IH.
    + simpl. now rewrite Hd.
    + apply Z.div_pos; lia.
Qed.

Lemma digits_aux_value (fuel : nat) :
  forall n, 0 <= n < 2 ^ Z.of_nat fuel ->
    value_of base 0 (digits_aux fuel base n []) = n.
Proof.
  induction fuel as [|fuel IH]; intros n Hn.
  - simpl in *. unfold value_of. simpl. lia.
  - simpl digits_aux.
    assert (Hm : 0 <= n mod base < base) by (apply Z.mod_pos_bound; lia).
    destruct (digit_char_dec (n mod base)) as [_ Hv]; [lia|].
    pose proof (Z.div_mod n base ltac:(lia)) as Hdm.
    destruct (Z.eqb_spec (n / base) 0) as [Hq | Hq].
    + unfold value_of. simpl. rewrite Hv. rewrite Hq in Hdm. lia.
    + rewrite digits_aux_app, value_of_app, IH.
      * unfold value_of. simpl. rewrite Hv. lia.
      * split; [apply Z.div_pos; lia|].
        apply Z.div_lt_upper_bound; [lia|].
        rewrite Nat2Z.inj_succ, Z.pow_succ_r in Hn by lia. nia.
Qed.

Lemma digits_digits (n : Z) :
  0 <= n ->
  forallb (fun c => dec_digit c && (digit_value c <? base)) (digits base n) = true.
Proof. intros Hn. now apply digits_aux_digits. Qed.

Lemma digits_value (n : Z) : 0 <= n -> value_of base 0 (digits base n) = n.
Proof.
  intros Hn. apply digits_aux_value. split; [assumption|].
  rewrite Nat2Z.inj_succ, Z2Nat.id by apply Z.log2_nonneg.
  destruct (Z.eq_dec n 0) as [-> | Hz]; [reflexivity|].
  apply Z.log2_spec. lia.
Qed.

Lemma digits_cons (n : Z) : exists c ds, digits base n = c :: ds.
Proof.
  unfold digits. simpl. destruct (n / base =? 0); [eauto|].
  rewrite digits_aux_app.
  destruct (digits_aux _ base (n / base) []); simpl; eauto.
Qed.

End Digits.

(** Reading back what [str] printed: [int(str(n)) == n] for [n >= 0]. *)
Lemma int_str_of_int (n : Z) : 0 <= n -> int (str_of_int n) = Return n.
Proof.
  intros Hn. unfold int, str_of_int.
  destruct (Z.ltb_spec n 0) as [Hneg | _]; [lia|].
  pose proof (digits_digits 10 ltac:(lia) n Hn) as Hd.
  pose proof (digits_value 10 ltac:(lia) n Hn) as Hv.
  destruct (digits_cons 10 n) as (c & ds & E). rewrite E in *.
  assert (Hall : forallb dec_digit (c :: ds) = true).
  { rewrite forallb_forall in *. intros x Hx. specialize (Hd x Hx).
    apply andb_prop in Hd. tauto. }
  rewrite (dec_digit_ascii _ Hall).
  rewrite from_string_digits; [now rewrite Hv | now right | assumption | discriminate].
Qed.

Lemma str_of_int_no_dot (n : Z) : 0 <= n -> no_dot (str_of_int n) = true.
Proof.
  intros Hn. unfold str_of_int.
  destruct (Z.ltb_spec n 0) as [Hneg | _]; [lia|].
  apply dec_digit_no_dot.
  pose proof (digits_digits 10 ltac:(lia) n Hn) as Hd.
  rewrite forallb_forall in *. intros x Hx. specialize (Hd x Hx).
  apply andb_prop in Hd. tauto.
Qed.

Lemma int_raises (s : str) (e : exn) : int s = Raise e -> e = ValueError.
Proof. apply from_string_raises. Qed.

Lemma int2_raises (s : str) (e : exn) : int2 s = Raise e -> e = ValueError.
Proof. apply from_string_raises. Qed.

End PyIntFacts.

(** ** Octets *)

Lemma octet_range_spec (v : Z) : octet_range v = true <-> 0 <= v <= 255.
Proof.
  unfold octet_range. rewrite negb_true_iff, orb_false_iff, Z.ltb_ge, Z.gtb_ltb, Z.ltb_ge.
  lia.
Qed.

Lemma is_binary_octet_spec (o : str) :
  is_binary_octet o = true <-> all_bits o = true /\ length o = 8%nat.
Proof.
  unfold is_binary_octet.
  rewrite negb_true_iff, orb_false_iff, !negb_false_iff, Nat.eqb_eq. tauto.
Qed.

(** A property checked on each of the 256 octet values holds of all of
    them. *)
Lemma forall_octets (P : Z -> bool) :
  forallb P (map Z.of_nat (seq 0 256)) = true ->
  forall v, 0 <= v <= 255 -> P v = true.
Proof.
  intros H v Hv. rewrite forallb_forall in H. apply H.
  rewrite <- (Z2Nat.id v) by lia. apply in_map, in_seq. lia.
Qed.

Lemma octet_bits_int2 (v : Z) :
  0 <= v <= 255 ->
  is_binary_octet (octet_bits v) = true /\ int2 (octet_bits v) = Return v.
Proof.
  intros Hv.
  pose (P := fun v => is_binary_octet (octet_bits v)
                      && match int2 (octet_bits v) with
                         | Return w => w =? v
                         | Raise _ => false
                         end).
  assert (HP : P v = true) by (apply forall_octets; [vm_compute; reflexivity | exact Hv]).
  unfold P in HP. apply andb_prop in HP. destruct HP as [H1 H2].
  split; [exact H1|].
  destruct (int2 (octet_bits v)) as [w|]; [|discriminate].
  apply Z.eqb_eq in H2. now subst.
Qed.

Lemma all_bits_cons (c : char) (o : str) :
  all_bits (c :: o) = true -> (c = 48%N \/ c = 49%N) /\ all_bits o = true.
Proof.
  unfold all_bits. simpl. intros H. apply andb_prop in H. destruct H as [Hc Ho].
  split; [|exact Ho].
  change (pystr "01") with [48%N; 49%N] in Hc. simpl in Hc.
  rewrite orb_false_r in Hc. apply orb_prop in Hc.
  destruct Hc as [Hc | Hc]; apply N.eqb_eq in Hc; auto.
Qed.

(** Every string of eight binary digits is the rendering of the octet value
    it denotes. *)
Lemma binary_octet_value (o : str) :
  is_binary_octet o = true ->
  exists v, 0 <= v <= 255 /\ int2 o = Return v /\ octet_bits v = o.
Proof.
  intros H. apply is_binary_octet_spec in H. destruct H as [Hb Hl].
  do 8 (destruct o as [|? o]; [discriminate Hl|]).
  destruct o; [|discriminate Hl]. clear Hl.
  repeat match goal with
         | H : all_bits (_ :: _) = true |- _ =>
             apply all_bits_cons in H; destruct H as [[-> | ->] H]
         end;
    eexists; (split; [|split; [vm_compute; reflexivity|vm_compute; reflexivity]]); lia.
Qed.

(** ** The loops over the octets *)

Import PyIntFacts.

Lemma is_decimal_octet_spec (o : str) :
  is_decimal_octet o = true <-> exists v, int o = Return v /\ 0 <= v <= 255.
Proof.
  unfold is_decimal_octet. split.
  - destruct (int o) as [v|]; [|discriminate].
    intros H. apply octet_range_spec in H. eauto.
  - intros (v & -> & Hv). now apply octet_range_spec.
Qed.

Lemma is_decimal_octet_value (o : str) :
  is_decimal_octet o = true ->
  int o = Return (int_value o) /\ 0 <= int_value o <= 255.
Proof.
  intros H. apply is_decimal_octet_spec in H. destruct H as (v & E & Hv).
  unfold int_value. now rewrite E.
Qed.

Lemma validate_ip_loop_spec (octets : list str) :
  Homework2.validate_ip_loop octets = Return (forallb is_decimal_octet octets).
Proof.
  induction octets as [|o octets IH]; simpl; [reflexivity|].
  unfold is_decimal_octet at 1, octet_range.
  destruct (int o) as [v|e] eqn:E.
  - destruct ((v <? 0) || (v >? 255)); simpl; [reflexivity | exact IH].
  - apply int_raises in E. now subst.
Qed.

Lemma validate_ip_format_loop_spec (octets : list str) :
  forall d b,
    Homework1.validate_ip_format_loop octets d b
    = Return (d && forallb is_decimal_octet octets,
              b && forallb is_binary_octet octets).
Proof.
  induction octets as [|o octets IH]; intros d b; simpl.
  - now rewrite !andb_true_r.
  - unfold is_decimal_octet at 1, octet_range, is_binary_octet at 1.
    destruct (int o) as [v|e] eqn:E.
    + destruct ((v <? 0) || (v >? 255)); simpl; rewrite IH;
        destruct (negb (all_bits o) || negb (length o =? 8)%nat); simpl;
        now rewrite ?andb_false_r.
    + apply int_raises in E. subst e. simpl. rewrite IH.
      destruct (negb (all_bits o) || negb (length o =? 8)%nat); simpl;
        now rewrite ?andb_false_r.
Qed.

Lemma decimal_to_binary_loop_spec (octets : list str) :
  forall acc,
    Homework1.decimal_to_binary_loop octets acc
    = match find (fun o => negb (is_decimal_octet o)) octets with
      | Some o => Return (decimal_error o)
      | None =>
          Return (join dot (acc ++ map (fun o => octet_bits (int_value o)) octets))
      end.
Proof.
  induction octets as [|o octets IH]; intros acc; simpl.
  - now rewrite app_nil_r.
  - unfold is_decimal_octet at 1, octet_range.
    destruct (int o) as [v|e] eqn:E.
    + destruct ((v <? 0) || (v >? 255)); simpl.
      * unfold decimal_error. now rewrite E.
      * cbv zeta. rewrite IH, <- app_assoc.
        unfold int_value at 2. now rewrite E.
    + pose proof (int_raises _ _ E) as He. subst e. simpl.
      unfold decimal_error. now rewrite E.
Qed.

Lemma binary_to_decimal_loop_spec (octets : list str) :
  forall acc,
    Homework1.binary_to_decimal_loop octets acc
    = match find (fun o => negb (is_binary_octet o)) octets with
      | Some o => Return (Homework1.err_binary_octet o)
      | None =>
          Return (join dot (acc ++ map (fun o => str_of_int (int2_value o)) octets))
      end.
Proof.
  induction octets as [|o octets IH]; intros acc; simpl.
  - now rewrite app_nil_r.
  - destruct (is_binary_octet o) eqn:Hb.
    + destruct (binary_octet_value o Hb) as (v & _ & Ev & _).
      unfold is_binary_octet in Hb. apply negb_true_iff in Hb. rewrite Hb.
      unfold int2_value at 1. rewrite Ev. simpl.
      rewrite IH, <- app_assoc. reflexivity.
    + unfold is_binary_octet in Hb. apply negb_false_iff in Hb. rewrite Hb.
      reflexivity.
Qed.

Lemma find_none_forallb {A : Type} (f : A -> bool) (l : list A) :
  find (fun x => negb (f x)) l = None <-> forallb f l = true.
Proof.
  induction l as [|a l IH]; simpl; [tauto|].
  destruct (f a); simpl; [exact IH | split; discriminate].
Qed.

Lemma find_some_bad {A : Type} (f : A -> bool) (l : list A) (a : A) :
  In a l -> f a = false ->
  exists b, find (fun x => negb (f x)) l = Some b /\ In b l /\ f b = false.
Proof.
  intros Hin Hf. destruct (find (fun x => negb (f x)) l) as [b|] eqn:E.
  - apply find_some in E. destruct E as [Hb Hnb].
    apply negb_true_iff in Hnb. eauto.
  - apply find_none_forallb in E. rewrite forallb_forall in E.
    rewrite (E a Hin) in Hf. discriminate.
Qed.

(** A list of four. *)
Lemma length4 {A : Type} (l : list A) :
  length l = 4%nat -> exists a b c d, l = [a; b; c; d].
Proof.
  intros H. do 4 (destruct l as [|? l]; [discriminate H|]).
  destruct l; [eauto 6 | discriminate H].
Qed.

(** ** The converters and validators on a whole address *)

Lemma validate_ip_spec (s : str) :
  Homework2.validate_ip s = Return (well_formed_decimal s).
Proof.
  unfold Homework2.validate_ip, well_formed_decimal.
  destruct (length (split_dot s) =? 4)%nat; simpl; [|reflexivity].
  apply validate_ip_loop_spec.
Qed.

Lemma validate_ip_format_spec (s : str) :
  Homework1.validate_ip_format s
  = Return (if well_formed_decimal s then pystr "decimal"
            else if well_formed_binary s then pystr "binary"
            else pystr "invalid").
Proof.
  unfold Homework1.validate_ip_format, well_formed_decimal, well_formed_binary.
  destruct (length (split_dot s) =? 4)%nat; simpl; [|reflexivity].
  rewrite validate_ip_format_loop_spec. simpl.
  destruct (forallb is_decimal_octet (split_dot s)); [reflexivity|].
  destruct (forallb is_binary_octet (split_dot s)); reflexivity.
Qed.

Lemma decimal_to_binary_spec (s : str) :
  Homework1.decimal_to_binary s
  = if (length (split_dot s) =? 4)%nat then
      match find (fun o => negb (is_decimal_octet o)) (split_dot s) with
      | Some o => Return (decimal_error o)
      | None =>
          Return (join dot (map (fun o => octet_bits (int_value o)) (split_dot s)))
      end
    else Return Homework1.err_four_octets.
Proof.
  unfold Homework1.decimal_to_binary.
  destruct (length (split_dot s) =? 4)%nat; simpl; [|reflexivity].
  apply decimal_to_binary_loop_spec.
Qed.

Lemma binary_to_decimal_spec (s : str) :
  Homework1.binary_to_decimal s
  = if (length (split_dot s) =? 4)%nat then
      match find (fun o => negb (is_binary_octet o)) (split_dot s) with
      | Some o => Return (Homework1.err_binary_octet o)
      | None =>
          Return (join dot (map (fun o => str_of_int (int2_value o)) (split_dot s)))
      end
    else Return Homework1.err_four_octets.
Proof.
  unfold Homework1.binary_to_decimal.
  destruct (length (split_dot s) =? 4)%nat; simpl; [|reflexivity].
  apply binary_to_decimal_loop_spec.
Qed.

(** The octets of a well-formed decimal address and their values. *)
Lemma well_formed_decimal_octets (s : str) :
  well_formed_decimal s = true ->
  exists o1 o2 o3 o4,
    split_dot s = [o1; o2; o3; o4]
    /\ Forall (fun o => int o = Return (int_value o) /\ 0 <= int_value o <= 255)
              [o1; o2; o3; o4].
Proof.
  unfold well_formed_decimal. intros H. apply andb_prop in H.
  destruct H as [Hl Hd]. apply Nat.eqb_eq in Hl.
  destruct (length4 _ Hl) as (o1 & o2 & o3 & o4 & E).
  exists o1, o2, o3, o4. split; [exact E|].
  rewrite E in Hd. rewrite forallb_forall in Hd. apply Forall_forall.
  intros o Ho. apply is_decimal_octet_value. auto.
Qed.

Lemma map_outcome_returns {A B : Type} (f : A -> outcome B) (l : list A) (vs : list B) :
  map f l = map Return vs -> map_outcome f l = Return vs.
Proof.
  revert vs. induction l as [|a l IH]; intros [|v vs] H; try discriminate.
  - reflexivity.
  - simpl in *. injection H as Ha Hl. rewrite Ha. simpl.
    now rewrite (IH vs Hl).
Qed.

(** ** Addresses as 32-bit numbers *)

Lemma octets_of_div (n : Z) :
  Homework2.octets_of n
  = [n / 2 ^ 24 mod 256; n / 2 ^ 16 mod 256; n / 2 ^ 8 mod 256; n mod 256].
Proof.
  unfold Homework2.octets_of.
  change 255 with (Z.ones 8).
  rewrite !Z.land_ones, !Z.shiftr_div_pow2 by lia. reflexivity.
Qed.

Lemma prefix_mask_bits (p i : Z) :
  0 <= p <= 32 -> 0 <= i ->
  Z.testbit (prefix_mask p) i = (32 - p <=? i) && (i <? 32).
Proof.
  intros Hp Hi. unfold prefix_mask.
  rewrite Z.shiftl_spec by assumption.
  destruct (Z.leb_spec (32 - p) i) as [Hle | Hlt].
  - rewrite Z.testbit_ones_nonneg by lia.
    destruct (Z.ltb_spec (i - (32 - p)) p), (Z.ltb_spec i 32); simpl; lia.
  - now rewrite Z.testbit_neg_r by lia.
Qed.

Lemma get_network_range_spec (s : str) (p a b c d : Z) :
  map int (split_dot s) = [Return a; Return b; Return c; Return d] ->
  p <= 32 ->
  let ip := Z.shiftl a 24 + Z.shiftl b 16 + Z.shiftl c 8 + d in
  let mask := (2 ^ 32 - 1) - (2 ^ (32 - p) - 1) in
  Homework2.get_network_range s p
  = Return (join dot (map str_of_int (Homework2.octets_of (Z.land ip mask))),
            join dot (map str_of_int
                        (Homework2.octets_of
                           (Z.lor (Z.land ip mask) (2 ^ (32 - p) - 1))))).
Proof.
  intros Hs Hp ip mask. unfold Homework2.get_network_range.
  rewrite (map_outcome_returns int (split_dot s) [a; b; c; d] Hs).
  cbn [bind index nth_error].
  destruct (Z.ltb_spec 32 p) as [Hgt | _]; [lia | reflexivity].
Qed.

(** ** Classes *)

Ltac pick_case :=
  first [ solve [split; [lia | split; reflexivity]]
        | left; solve [split; [lia | split; reflexivity]]
        | right; pick_case ].

(** What [determine_ip_class] answers, by the value of the first octet. *)
Lemma determine_ip_class_cases (s o : str) (rest : list str) (v : Z) :
  split_dot s = o :: rest -> int o = Return v -> 0 <= v <= 255 ->
  exists cls p,
    determine_ip_class s = Return (cls, p)
    /\ (   1 <= v <= 126 /\ cls = pystr "A" /\ p = 8
        \/ 128 <= v <= 191 /\ cls = pystr "B" /\ p = 16
        \/ 192 <= v <= 223 /\ cls = pystr "C" /\ p = 24
        \/ 224 <= v <= 239 /\ cls = pystr "D" /\ p = 0
        \/ 240 <= v <= 255 /\ cls = pystr "E" /\ p = 0
        \/ v = 127 /\ cls = pystr "Loopback" /\ p = 8
        \/ v = 0 /\ cls = class_unknown /\ p = 0).
Proof.
  intros Hs Ho Hv. unfold determine_ip_class.
  rewrite Hs. cbn [index nth_error bind]. rewrite Ho. cbn [bind].
  repeat match goal with
         | |- context [if ?b then _ else _] => destruct b eqn:?
         end;
    eexists _, _; (split; [reflexivity|]); pick_case.
Qed.

Lemma str_eqb_eq (a b : str) : str_eqb a b = true <-> a = b.
Proof.
  revert b. induction a as [|x a IH]; intros [|y b]; simpl;
    try (split; [discriminate | congruence]); [tauto|].
  rewrite andb_true_iff, N.eqb_eq, IH. split; [intros [-> ->] | intros [= -> ->]]; auto.
Qed.

Lemma dict_get_skip (k key : str) (v : value) (d : dict) :
  str_eqb k key = false -> dict_get ((k, v) :: d) key = dict_get d key.
Proof. intros H. simpl. now rewrite H. Qed.

Lemma dict_get_hit (k key : str) (v : value) (d : dict) :
  str_eqb k key = true -> dict_get ((k, v) :: d) key = Some v.
Proof. intros H. simpl. now rewrite H. Qed.

(** Looks a literal key up in a dictionary whose keys are literals. *)
Ltac lookup :=
  repeat rewrite dict_get_skip by reflexivity;
  first [ rewrite dict_get_hit by reflexivity | reflexivity ].

(** ** Masks *)

Lemma prefix_mask_value (p : Z) :
  0 <= p <= 32 -> prefix_mask p = (2 ^ 32 - 1) - (2 ^ (32 - p) - 1).
Proof.
  intros Hp. unfold prefix_mask.
  rewrite Z.shiftl_mul_pow2, Z.ones_equiv by lia.
  replace (Z.pred (2 ^ p) * 2 ^ (32 - p)) with (2 ^ p * 2 ^ (32 - p) - 2 ^ (32 - p)) by lia.
  rewrite <- Z.pow_add_r by lia. replace (p + (32 - p)) with 32 by lia. lia.
Qed.

Lemma not32_prefix_mask (p : Z) :
  0 <= p <= 32 -> not32 (prefix_mask p) = 2 ^ (32 - p) - 1.
Proof.
  intros Hp. unfold not32.
  rewrite Z.land_ones by lia. rewrite (prefix_mask_value p Hp).
  unfold Z.lnot.
  assert (Hpow : 0 < 2 ^ (32 - p) <= 2 ^ 32).
  { split; [apply Z.pow_pos_nonneg; lia | apply Z.pow_le_mono_r; lia]. }
  replace (Z.pred (- (2 ^ 32 - 1 - (2 ^ (32 - p) - 1))))
    with (2 ^ (32 - p) - 1 + (-1) * 2 ^ 32) by lia.
  rewrite Z.mod_add by lia. apply Z.mod_small. lia.
Qed.

(** The dotted mask that [get_subnet_mask] builds out of a string of bits
    is the dotted notation of the mask as a number, for every prefix length
    from 0 to 32. *)
Lemma get_subnet_mask_prefix (p : Z) :
  0 <= p <= 32 -> get_subnet_mask p = Return (dotted_quad (prefix_mask p)).
Proof.
  intros Hp.
  pose (P := fun p => match get_subnet_mask p with
                      | Return m => str_eqb m (dotted_quad (prefix_mask p))
                      | Raise _ => false
                      end).
  assert (HP : P p = true).
  { assert (Hall : forallb P (map Z.of_nat (seq 0 33)) = true)
      by (vm_compute; reflexivity).
    rewrite forallb_forall in Hall. apply Hall.
    rewrite <- (Z2Nat.id p) by lia. apply in_map, in_seq. lia. }
  unfold P in HP. destruct (get_subnet_mask p) as [m|]; [|discriminate].
  apply str_eqb_eq in HP. now subst.
Qed.

(** The two addresses [get_network_range] returns, for every prefix length
    from 0 to 32: the address AND the mask, and that OR the complement of
    the mask. *)
Lemma get_network_range_prefix (s : str) (p a b c d : Z) :
  map int (split_dot s) = [Return a; Return b; Return c; Return d] ->
  0 <= p <= 32 ->
  let network := Z.land (ip_number a b c d) (prefix_mask p) in
  get_network_range s p
  = Return (dotted_quad network,
            dotted_quad (Z.lor network (not32 (prefix_mask p)))).
Proof.
  intros Hs Hp network.
  rewrite (get_network_range_spec s p a b c d Hs) by lia.
  rewrite !octets_of_div.
  rewrite <- (prefix_mask_value p Hp), <- (not32_prefix_mask p Hp).
  rewrite !Z.shiftl_mul_pow2 by lia. reflexivity.
Qed.

(** ** [analyze_ip] on a well-formed address *)

Lemma well_formed_decimal_values (s : str) :
  well_formed_decimal s = true ->
  exists o1 o2 o3 o4 a b c d,
    split_dot s = [o1; o2; o3; o4]
    /\ map int (split_dot s) = [Return a; Return b; Return c; Return d]
    /\ int o1 = Return a
    /\ 0 <= a <= 255 /\ 0 <= b <= 255 /\ 0 <= c <= 255 /\ 0 <= d <= 255.
Proof.
  intros H. destruct (well_formed_decimal_octets s H) as (o1 & o2 & o3 & o4 & E & HF).
  exists o1, o2, o3, o4, (int_value o1), (int_value o2), (int_value o3), (int_value o4).
  inversion_clear HF as [|? ? [E1 B1] HF1].
  inversion_clear HF1 as [|? ? [E2 B2] HF2].
  inversion_clear HF2 as [|? ? [E3 B3] HF3].
  inversion_clear HF3 as [|? ? [E4 B4] _].
  rewrite E. cbn [map]. rewrite <- E1, <- E2, <- E3, <- E4. tauto.
Qed.

(** The dictionary [analyze_ip] returns for a well-formed address, by the
    class of the address. *)
Lemma analyze_ip_well_formed (s : str) :
  well_formed_decimal s = true ->
  exists a b c d cls p,
    map int (split_dot s) = [Return a; Return b; Return c; Return d]
    /\ determine_ip_class s = Return (cls, p)
    /\ (   In cls [pystr "D"; pystr "E"; class_unknown]
           /\ analyze_ip s = Return (note_result s cls)
        \/ In cls [pystr "A"; pystr "B"; pystr "C"; pystr "Loopback"]
           /\ class_prefix cls = Some p
           /\ analyze_ip s = Return (network_result s cls p (ip_number a b c d))).
Proof.
  intros Hwf.
  destruct (well_formed_decimal_values s Hwf)
    as (o1 & o2 & o3 & o4 & a & b & c & d & E & Hm & E1 & Ha & Hb & Hc & Hd).
  destruct (determine_ip_class_cases s o1 _ a E E1 Ha) as (cls & p & Hcls & Hcase).
  exists a, b, c, d, cls, p. split; [exact Hm|]. split; [exact Hcls|].
  unfold analyze_ip. rewrite validate_ip_spec, Hwf. cbn [bind negb].
  rewrite Hcls. cbn [bind].
  destruct Hcase as [H|[H|[H|[H|[H|[H|H]]]]]];
    destruct H as (_ & -> & ->);
    match goal with
    | |- context [existsb ?f ?l] =>
        let r := eval vm_compute in (existsb f l) in
        change (existsb f l) with r
    end; cbv iota.
  1-3, 6: right; (split; [cbn [In]; tauto|]); (split; [reflexivity|]);
    rewrite get_subnet_mask_prefix by lia; cbn [bind];
    rewrite (get_network_range_prefix s _ a b c d Hm) by lia; reflexivity.
  all: left; (split; [cbn [In]; tauto | reflexivity]).
Qed.

(** ** Conversions of whole addresses *)

Lemma split_not_nil (sep : char) (s : str) : split sep s <> [].
Proof.
  destruct s as [|c s]; simpl; [discriminate|].
  destruct (c =? sep)%N; [discriminate|].
  destruct (split sep s); discriminate.
Qed.

Lemma join_split_dot (s : str) : join dot (split_dot s) = s.
Proof.
  rewrite dot_char. unfold split_dot.
  induction s as [|c s IH]; [reflexivity|].
  cbn [split]. pose proof (split_not_nil 46%N s) as Hne.
  destruct (N.eqb_spec c 46) as [-> | Hc].
  - destruct (split 46%N s) as [|w ws] eqn:E; [contradiction|].
    cbn [join app] in *. now rewrite IH.
  - destruct (split 46%N s) as [|w ws] eqn:E; [contradiction|].
    destruct ws; cbn [join app] in *; now rewrite <- IH.
Qed.

Lemma binary_octet_no_dot (o : str) : is_binary_octet o = true -> no_dot o = true.
Proof.
  intros H. apply is_binary_octet_spec in H. destruct H as [H _].
  unfold no_dot. induction o as [|c o IH]; [reflexivity|].
  apply all_bits_cons in H. destruct H as [[-> | ->] H]; simpl; auto.
Qed.

Lemma decimal_to_binary_values (s : str) (a b c d : Z) :
  map int (split_dot s) = [Return a; Return b; Return c; Return d] ->
  0 <= a <= 255 -> 0 <= b <= 255 -> 0 <= c <= 255 -> 0 <= d <= 255 ->
  decimal_to_binary s = Return (join dot (map octet_bits [a; b; c; d])).
Proof.
  intros Hm Ha Hb Hc Hd. rewrite decimal_to_binary_spec.
  destruct (split_dot s) as [|o1 [|o2 [|o3 [|o4 [|? ?]]]]]; try discriminate Hm.
  injection Hm as E1 E2 E3 E4.
  cbn [length Nat.eqb find]. unfold is_decimal_octet.
  rewrite E1, E2, E3, E4.
  rewrite (proj2 (octet_range_spec a) Ha), (proj2 (octet_range_spec b) Hb),
    (proj2 (octet_range_spec c) Hc), (proj2 (octet_range_spec d) Hd).
  cbn [negb map]. unfold int_value. now rewrite E1, E2, E3, E4.
Qed.

Lemma binary_to_decimal_octets (s o1 o2 o3 o4 : str) (a b c d : Z) :
  split_dot s = [o1; o2; o3; o4] ->
  is_binary_octet o1 = true -> is_binary_octet o2 = true ->
  is_binary_octet o3 = true -> is_binary_octet o4 = true ->
  int2 o1 = Return a -> int2 o2 = Return b ->
  int2 o3 = Return c -> int2 o4 = Return d ->
  binary_to_decimal s = Return (join dot (map str_of_int [a; b; c; d])).
Proof.
  intros E H1 H2 H3 H4 E1 E2 E3 E4. rewrite binary_to_decimal_spec, E.
  cbn [length Nat.eqb find]. rewrite H1, H2, H3, H4.
  cbn [negb map]. unfold int2_value. now rewrite E1, E2, E3, E4.
Qed.

Lemma split_dotted (a b c d : Z) :
  0 <= a -> 0 <= b -> 0 <= c -> 0 <= d ->
  split_dot (join dot (map str_of_int [a; b; c; d])) = map str_of_int [a; b; c; d].
Proof. intros. apply split_join4; now apply str_of_int_no_dot. Qed.

Lemma split_bits (a b c d : Z) :
  0 <= a <= 255 -> 0 <= b <= 255 -> 0 <= c <= 255 -> 0 <= d <= 255 ->
  split_dot (join dot (map octet_bits [a; b; c; d])) = map octet_bits [a; b; c; d].
Proof.
  intros. apply split_join4; apply binary_octet_no_dot; now apply octet_bits_int2.
Qed.

(** Decimal to binary and back, on the octet values. *)
Lemma binary_to_decimal_bits (a b c d : Z) :
  0 <= a <= 255 -> 0 <= b <= 255 -> 0 <= c <= 255 -> 0 <= d <= 255 ->
  binary_to_decimal (join dot (map octet_bits [a; b; c; d]))
  = Return (join dot (map str_of_int [a; b; c; d])).
Proof.
  intros Ha Hb Hc Hd.
  apply (binary_to_decimal_octets _ _ _ _ _ a b c d (split_bits a b c d Ha Hb Hc Hd));
    now apply octet_bits_int2.
Qed.

Lemma decimal_to_binary_dotted (a b c d : Z) :
  0 <= a <= 255 -> 0 <= b <= 255 -> 0 <= c <= 255 -> 0 <= d <= 255 ->
  decimal_to_binary (join dot (map str_of_int [a; b; c; d]))
  = Return (join dot (map octet_bits [a; b; c; d])).
Proof.
  intros Ha Hb Hc Hd. apply decimal_to_binary_values; try assumption.
  rewrite split_dotted by lia. cbn [map].
  now rewrite !int_str_of_int by lia.
Qed.

Lemma well_formed_dotted (a b c d : Z) :
  0 <= a <= 255 -> 0 <= b <= 255 -> 0 <= c <= 255 -> 0 <= d <= 255 ->
  well_formed_decimal (join dot (map str_of_int [a; b; c; d])) = true.
Proof.
  intros Ha Hb Hc Hd. unfold well_formed_decimal.
  rewrite split_dotted by lia. cbn [map length Nat.eqb forallb andb].
  unfold is_decimal_octet. rewrite !int_str_of_int by lia.
  now rewrite !(proj2 (octet_range_spec _)) by assumption.
Qed.

Lemma validate_ip_format_decimal (s : str) :
  validate_ip_format s = Return (pystr "decimal") <-> well_formed_decimal s = true.
Proof.
  rewrite validate_ip_format_spec.
  destruct (well_formed_decimal s); [tauto|].
  destruct (well_formed_binary s); split; intros H; discriminate H.
Qed.

(** * The claims *)

(** C1, as stated, fails: ["01.2.3.4"] is accepted as a decimal address by
    both validators, and converting it to binary and back gives
    ["1.2.3.4"], not the original string. *)
Lemma decimal_round_trip_leading_zero :
  validate_ip_format (pystr "01.2.3.4") = Return (pystr "decimal")
  /\ validate_ip (pystr "01.2.3.4") = Return true
  /\ decimal_to_binary (pystr "01.2.3.4")
     = Return (pystr "00000001.00000010.00000011.00000100")
  /\ (binary_ip <- decimal_to_binary (pystr "01.2.3.4") ;;
      binary_to_decimal binary_ip) = Return (pystr "1.2.3.4")
  /\ (binary_ip <- decimal_to_binary (pystr "01.2.3.4") ;;
      binary_to_decimal binary_ip) <> Return (pystr "01.2.3.4").
Proof.
  repeat split; try (vm_compute; reflexivity).
  vm_compute. discriminate.
Qed.

(** C1 (amended): for every string accepted as a decimal address, converting
    it to binary and back returns the four octet values printed in plain
    decimal and joined by dots.  That canonical string is itself accepted
    and is returned unchanged by the round trip, so the round trip gives the
    original back exactly when the original is written canonically. *)
Theorem decimal_round_trip_canonical (s : str) :
  validate_ip_format s = Return (pystr "decimal") ->
  exists a b c d,
    map int (split_dot s) = [Return a; Return b; Return c; Return d]
    /\ (0 <= a <= 255 /\ 0 <= b <= 255 /\ 0 <= c <= 255 /\ 0 <= d <= 255)
    /\ let canonical := join dot (map str_of_int [a; b; c; d]) in
       (binary_ip <- decimal_to_binary s ;; binary_to_decimal binary_ip)
       = Return canonical
       /\ validate_ip_format canonical = Return (pystr "decimal")
       /\ (binary_ip <- decimal_to_binary canonical ;; binary_to_decimal binary_ip)
          = Return canonical
       /\ ((binary_ip <- decimal_to_binary s ;; binary_to_decimal binary_ip)
           = Return s <-> s = canonical).
Proof.
  intros H. apply validate_ip_format_decimal in H.
  destruct (well_formed_decimal_values s H)
    as (o1 & o2 & o3 & o4 & a & b & c & d & _ & Hm & _ & Ha & Hb & Hc & Hd).
  exists a, b, c, d. split; [exact Hm|]. split; [tauto|]. cbv zeta.
  assert (Hrt : (binary_ip <- decimal_to_binary s ;; binary_to_decimal binary_ip)
                = Return (join dot (map str_of_int [a; b; c; d]))).
  { rewrite (decimal_to_binary_values s a b c d) by assumption.
    cbn [bind]. now apply binary_to_decimal_bits. }
  split; [exact Hrt|]. split; [|split].
  - apply validate_ip_format_decimal. now apply well_formed_dotted.
  - rewrite decimal_to_binary_dotted by assumption.
    cbn [bind]. now apply binary_to_decimal_bits.
  - rewrite Hrt. split; [intros [= E]; now symmetry | intros E; now f_equal].
Qed.

Lemma decimal_round_trip_canonical_witness :
  exists a b c d,
    map int (split_dot (pystr "192.168.1.1"))
    = [Return a; Return b; Return c; Return d]
    /\ (0 <= a <= 255 /\ 0 <= b <= 255 /\ 0 <= c <= 255 /\ 0 <= d <= 255)
    /\ let canonical := join dot (map str_of_int [a; b; c; d]) in
       (binary_ip <- decimal_to_binary (pystr "192.168.1.1") ;;
        binary_to_decimal binary_ip) = Return canonical
       /\ validate_ip_format canonical = Return (pystr "decimal")
       /\ (binary_ip <- decimal_to_binary canonical ;; binary_to_decimal binary_ip)
          = Return canonical
       /\ ((binary_ip <- decimal_to_binary (pystr "192.168.1.1") ;;
            binary_to_decimal binary_ip) = Return (pystr "192.168.1.1")
           <-> pystr "192.168.1.1" = canonical).
Proof.
  apply (decimal_round_trip_canonical (pystr "192.168.1.1")).
  vm_compute. reflexivity.
Defined.

(** C2, as stated, fails: ["0.0.0.0"] is accepted by [validate_ip], and
    [determine_ip_class] answers the class ["Неизвестный"] (unknown), which
    is none of A, B, C, D, E, Loopback. *)
Lemma determine_ip_class_zero_octet :
  validate_ip (pystr "0.0.0.0") = Return true
  /\ determine_ip_class (pystr "0.0.0.0") = Return (class_unknown, 0)
  /\ ~ In class_unknown legacy_classes.
Proof.
  split; [vm_compute; reflexivity|]. split; [vm_compute; reflexivity|].
  vm_compute. intuition discriminate.
Qed.

(** C2 (amended): for every address accepted by [validate_ip],
    [determine_ip_class] returns A, B, C, D, E or Loopback when the first
    octet is not zero, and the class ["Неизвестный"] (unknown) with prefix 0
    when the first octet is zero. *)
Theorem determine_ip_class_of_valid (s : str) :
  validate_ip s = Return true ->
  exists first_octet cls p,
    (octet <- index (split_dot s) 0 ;; int octet) = Return first_octet
    /\ 0 <= first_octet <= 255
    /\ determine_ip_class s = Return (cls, p)
    /\ (first_octet <> 0 -> In cls legacy_classes)
    /\ (first_octet = 0 -> cls = class_unknown /\ p = 0).
Proof.
  rewrite validate_ip_spec. intros [= Hwf].
  destruct (well_formed_decimal_values s Hwf)
    as (o1 & o2 & o3 & o4 & a & b & c & d & E & _ & E1 & Ha & _).
  destruct (determine_ip_class_cases s o1 _ a E E1 Ha) as (cls & p & Hcls & Hcase).
  exists a, cls, p. rewrite E. cbn [index nth_error bind].
  split; [exact E1|]. split; [exact Ha|]. split; [exact Hcls|].
  unfold legacy_classes.
  destruct Hcase as [H|[H|[H|[H|[H|[H|H]]]]]]; destruct H as (Hr & -> & ->);
    (split; [intros Hnz; cbn [In]; first [tauto | lia]
            | intros Hz; first [lia | split; reflexivity]]).
Qed.

Lemma determine_ip_class_of_valid_witness :
  exists first_octet cls p,
    (octet <- index (split_dot (pystr "172.16.0.1")) 0 ;; int octet)
    = Return first_octet
    /\ 0 <= first_octet <= 255
    /\ determine_ip_class (pystr "172.16.0.1") = Return (cls, p)
    /\ (first_octet <> 0 -> In cls legacy_classes)
    /\ (first_octet = 0 -> cls = class_unknown /\ p = 0).
Proof.
  apply (determine_ip_class_of_valid (pystr "172.16.0.1")).
  vm_compute. reflexivity.
Defined.

(** C3: for every input string, [decimal_to_binary], [binary_to_decimal]
    and [analyze_ip] return and do not raise.  A wrong number of octets, an
    out-of-range or unreadable decimal octet, and an octet that is not
    eight binary digits are each answered with the corresponding error
    value; anything else is well formed and is converted or analysed. *)
Theorem no_exception_escapes (s : str) :
  (exists r,
      decimal_to_binary s = Return r
      /\ (   (length (split_dot s) =? 4)%nat = false /\ r = err_four_octets
          \/ (exists o v, In o (split_dot s) /\ int o = Return v
                          /\ octet_range v = false /\ r = err_range o)
          \/ (exists o, In o (split_dot s) /\ int o = Raise ValueError
                        /\ r = err_not_a_number o)
          \/ well_formed_decimal s = true
             /\ r = join dot (map (fun o => octet_bits (int_value o)) (split_dot s))))
  /\ (exists r,
      binary_to_decimal s = Return r
      /\ (   (length (split_dot s) =? 4)%nat = false /\ r = err_four_octets
          \/ (exists o, In o (split_dot s) /\ is_binary_octet o = false
                        /\ r = err_binary_octet o)
          \/ well_formed_binary s = true
             /\ r = join dot (map (fun o => str_of_int (int2_value o)) (split_dot s))))
  /\ (exists d,
      analyze_ip s = Return d
      /\ (   well_formed_decimal s = false /\ d = invalid_format
          \/ well_formed_decimal s = true
             /\ dict_get d (pystr "error") = None
             /\ dict_get d (pystr "ip_address") = Some (VStr s))).
Proof.
  split; [|split].
  - rewrite decimal_to_binary_spec. unfold well_formed_decimal.
    destruct (length (split_dot s) =? 4)%nat; [|eauto].
    destruct (find (fun o => negb (is_decimal_octet o)) (split_dot s)) as [o|] eqn:F.
    + apply find_some in F. destruct F as [Hin Hbad].
      apply negb_true_iff in Hbad. unfold is_decimal_octet in Hbad.
      unfold decimal_error. destruct (int o) as [v|e] eqn:E.
      * eexists. split; [reflexivity|]. right. left.
        exists o, v. repeat split; assumption.
      * pose proof (int_raises _ _ E) as ->.
        eexists. split; [reflexivity|]. right. right. left.
        exists o. repeat split; assumption.
    + apply find_none_forallb in F. rewrite F.
      eexists. split; [reflexivity|]. right. right. right. auto.
  - rewrite binary_to_decimal_spec. unfold well_formed_binary.
    destruct (length (split_dot s) =? 4)%nat; [|eauto].
    destruct (find (fun o => negb (is_binary_octet o)) (split_dot s)) as [o|] eqn:F.
    + apply find_some in F. destruct F as [Hin Hbad].
      apply negb_true_iff in Hbad.
      eexists. split; [reflexivity|]. right. left.
      exists o. repeat split; assumption.
    + apply find_none_forallb in F. rewrite F.
      eexists. split; [reflexivity|]. right. right. auto.
  - destruct (well_formed_decimal s) eqn:Hwf.
    + destruct (analyze_ip_well_formed s Hwf)
        as (a & b & c & d & cls & p & _ & _ & [[_ Hr] | (_ & _ & Hr)]);
        rewrite Hr; eexists; (split; [reflexivity|]); right;
        (split; [reflexivity|]); split; lookup; reflexivity.
    + unfold analyze_ip. rewrite validate_ip_spec, Hwf. cbn [bind negb].
      eexists. split; [reflexivity|]. left. auto.
Qed.

(** C4: for every address accepted by [validate_ip] whose class is A, B, C
    or Loopback, the prefix is 8, 16, 24 or 8; the mask has that many leading
    1-bits in a 32-bit word, and [analyze_ip] returns that mask, the address
    AND the mask as network address, and the network address OR the
    complement of the mask as broadcast address, all in dotted decimal. *)
Theorem analyze_ip_default_network (s cls : str) (p : Z) :
  validate_ip s = Return true ->
  determine_ip_class s = Return (cls, p) ->
  In cls [pystr "A"; pystr "B"; pystr "C"; pystr "Loopback"] ->
  exists a b c d res,
    map int (split_dot s) = [Return a; Return b; Return c; Return d]
    /\ class_prefix cls = Some p
    /\ (forall i, 0 <= i ->
          Z.testbit (prefix_mask p) i = (32 - p <=? i) && (i <? 32))
    /\ let ip := ip_number a b c d in
       let mask := prefix_mask p in
       let network := Z.land ip mask in
       let broadcast := Z.lor network (not32 mask) in
       analyze_ip s = Return res
       /\ dict_get res (pystr "ip_class") = Some (VStr cls)
       /\ dict_get res (pystr "network_prefix") = Some (VInt p)
       /\ dict_get res (pystr "subnet_mask") = Some (VStr (dotted_quad mask))
       /\ dict_get res (pystr "network_address")
          = Some (VStr (dotted_quad network))
       /\ dict_get res (pystr "broadcast_address")
          = Some (VStr (dotted_quad broadcast)).
Proof.
  rewrite validate_ip_spec. intros [= Hwf] Hdet Hin.
  destruct (analyze_ip_well_formed s Hwf)
    as (a & b & c & d & cls' & p' & Hm & Hcls & Hres).
  rewrite Hdet in Hcls. injection Hcls as <- <-.
  destruct Hres as [[Hspecial _] | (_ & Hp & Hr)].
  - exfalso. cbn [In] in Hin, Hspecial.
    destruct Hin as [<-|[<-|[<-|[<-|[]]]]];
      destruct Hspecial as [H|[H|[H|[]]]]; vm_compute in H; discriminate H.
  - exists a, b, c, d, (network_result s cls p (ip_number a b c d)).
    split; [exact Hm|]. split; [exact Hp|]. split.
    + intros i Hi. apply prefix_mask_bits; [|exact Hi].
      cbn [In] in Hin.
      destruct Hin as [<-|[<-|[<-|[<-|[]]]]]; vm_compute in Hp;
        injection Hp as <-; lia.
    + cbv zeta. split; [exact Hr|]. unfold network_result.
      repeat split; lookup; reflexivity.
Qed.

Lemma analyze_ip_default_network_witness :
  exists a b c d res,
    map int (split_dot (pystr "192.168.1.77"))
    = [Return a; Return b; Return c; Return d]
    /\ class_prefix (pystr "C") = Some 24
    /\ (forall i, 0 <= i ->
          Z.testbit (prefix_mask 24) i = (32 - 24 <=? i) && (i <? 32))
    /\ let ip := ip_number a b c d in
       let mask := prefix_mask 24 in
       let network := Z.land ip mask in
       let broadcast := Z.lor network (not32 mask) in
       analyze_ip (pystr "192.168.1.77") = Return res
       /\ dict_get res (pystr "ip_class") = Some (VStr (pystr "C"))
       /\ dict_get res (pystr "network_prefix") = Some (VInt 24)
       /\ dict_get res (pystr "subnet_mask") = Some (VStr (dotted_quad mask))
       /\ dict_get res (pystr "network_address")
          = Some (VStr (dotted_quad network))
       /\ dict_get res (pystr "broadcast_address")
          = Some (VStr (dotted_quad broadcast)).
Proof.
  apply (analyze_ip_default_network (pystr "192.168.1.77") (pystr "C") 24).
  - vm_compute. reflexivity.
  - vm_compute. reflexivity.
  - cbn [In]. right. right. left. reflexivity.
Defined.

(** C5: an address with an octet whose decimal value is above 255 is
    refused by [validate_ip], and [decimal_to_binary] answers it with one of
    its error messages; an address with an octet that is not exactly eight
    binary digits is answered by [binary_to_decimal] with one of its error
    messages. *)
Theorem bad_octets_rejected (s o : str) :
  In o (split_dot s) ->
  (forall v, int o = Return v -> 255 < v ->
     validate_ip s = Return false
     /\ (decimal_to_binary s = Return err_four_octets
         \/ exists o', In o' (split_dot s) /\ is_decimal_octet o' = false
                       /\ (decimal_to_binary s = Return (err_range o')
                           \/ decimal_to_binary s = Return (err_not_a_number o'))))
  /\ (is_binary_octet o = false ->
      binary_to_decimal s = Return err_four_octets
      \/ exists o', In o' (split_dot s) /\ is_binary_octet o' = false
                    /\ binary_to_decimal s = Return (err_binary_octet o')).
Proof.
  intros Hin. split.
  - intros v Ev Hv.
    assert (Hbad : is_decimal_octet o = false).
    { unfold is_decimal_octet. rewrite Ev.
      destruct (octet_range v) eqn:R; [|reflexivity].
      apply octet_range_spec in R. lia. }
    split.
    + rewrite validate_ip_spec. f_equal. unfold well_formed_decimal.
      destruct (forallb is_decimal_octet (split_dot s)) eqn:F;
        [|apply andb_false_r].
      rewrite forallb_forall in F. rewrite (F o Hin) in Hbad. discriminate.
    + rewrite decimal_to_binary_spec.
      destruct (length (split_dot s) =? 4)%nat; [|now left]. right.
      destruct (find_some_bad is_decimal_octet _ o Hin Hbad) as (o' & -> & Hin' & Hbad').
      exists o'. split; [exact Hin'|]. split; [exact Hbad'|].
      unfold decimal_error. destruct (int o'); auto.
  - intros Hbad. rewrite binary_to_decimal_spec.
    destruct (length (split_dot s) =? 4)%nat; [|now left]. right.
    destruct (find_some_bad is_binary_octet _ o Hin Hbad) as (o' & -> & Hin' & Hbad').
    exists o'. auto.
Qed.

Lemma bad_octets_rejected_witness :
  (validate_ip (pystr "256.1.1.1") = Return false
   /\ (decimal_to_binary (pystr "256.1.1.1") = Return err_four_octets
       \/ exists o', In o' (split_dot (pystr "256.1.1.1"))
                     /\ is_decimal_octet o' = false
                     /\ (decimal_to_binary (pystr "256.1.1.1") = Return (err_range o')
                         \/ decimal_to_binary (pystr "256.1.1.1")
                            = Return (err_not_a_number o'))))
  /\ (binary_to_decimal (pystr "1111111.00000000.00000000.00000001")
      = Return err_four_octets
      \/ exists o', In o' (split_dot (pystr "1111111.00000000.00000000.00000001"))
                    /\ is_binary_octet o' = false
                    /\ binary_to_decimal (pystr "1111111.00000000.00000000.00000001")
                       = Return (err_binary_octet o')).
Proof.
  split.
  - apply (bad_octets_rejected (pystr "256.1.1.1") (pystr "256")) with (v := 256).
    + vm_compute. left. reflexivity.
    + vm_compute. reflexivity.
    + lia.
  - apply (bad_octets_rejected (pystr "1111111.00000000.00000000.00000001")
             (pystr "1111111")).
    + vm_compute. left. reflexivity.
    + vm_compute. reflexivity.
Defined.

(** C6: [analyze_ip("10.0.0.1")] reports class A, prefix 8 and mask
    ["255.0.0.0"]. *)
Theorem analyze_ip_10_0_0_1 :
  exists res,
    analyze_ip (pystr "10.0.0.1") = Return res
    /\ dict_get res (pystr "ip_class") = Some (VStr (pystr "A"))
    /\ dict_get res (pystr "network_prefix") = Some (VInt 8)
    /\ dict_get res (pystr "subnet_mask") = Some (VStr (pystr "255.0.0.0")).
Proof.
  eexists. split; [vm_compute; reflexivity|].
  repeat split; vm_compute; reflexivity.
Qed.

(** C7: [analyze_ip("224.0.0.1")] reports class D; the result holds the
    address, the class and a note, and no mask, network address, broadcast
    address, prefix or host count. *)
Theorem analyze_ip_224_0_0_1 :
  exists res,
    analyze_ip (pystr "224.0.0.1") = Return res
    /\ map fst res = [pystr "ip_address"; pystr "ip_class"; pystr "note"]
    /\ dict_get res (pystr "ip_class") = Some (VStr (pystr "D"))
    /\ dict_get res (pystr "note")
       = Some (VStr (pystr "Для IP-адресов класса D не применяется стандартная маска подсети"))
    /\ dict_get res (pystr "subnet_mask") = None
    /\ dict_get res (pystr "network_address") = None
    /\ dict_get res (pystr "broadcast_address") = None
    /\ dict_get res (pystr "network_prefix") = None
    /\ dict_get res (pystr "usable_hosts") = None.
Proof.
  eexists. split; [vm_compute; reflexivity|].
  repeat split; vm_compute; reflexivity.
Qed.

(** C8: [decimal_to_binary("192.168.1.1")] is
    ["11000000.10101000.00000001.00000001"]. *)
Theorem decimal_to_binary_192_168_1_1 :
  decimal_to_binary (pystr "192.168.1.1")
  = Return (pystr "11000000.10101000.00000001.00000001").
Proof. vm_compute. reflexivity. Qed.

(** C9: when each of the four octets is eight binary digits and, read as a
    decimal number, lies between 0 and 255, [validate_ip_format] answers
    ["decimal"], and the loop of [main] prints the decimal-to-binary
    conversion of the input. *)
Theorem binary_looking_is_decimal (s : str) :
  length (split_dot s) = 4%nat ->
  (forall o, In o (split_dot s) ->
     is_binary_octet o = true /\ exists v, int o = Return v /\ 0 <= v <= 255) ->
  validate_ip_format s = Return (pystr "decimal")
  /\ validate_ip_format s <> Return (pystr "binary")
  /\ exists binary_ip,
       decimal_to_binary s = Return binary_ip
       /\ main_step s
          = Return [ 10%N :: pystr "Десятичная запись: " ++ s;
                     pystr "Двоичная запись:   " ++ binary_ip ].
Proof.
  intros Hl Ho.
  assert (Hall : forallb is_decimal_octet (split_dot s) = true).
  { apply forallb_forall. intros o Hin. apply is_decimal_octet_spec.
    now destruct (Ho o Hin). }
  assert (Hwf : well_formed_decimal s = true).
  { unfold well_formed_decimal. rewrite Hl, Hall. reflexivity. }
  assert (Hfmt : validate_ip_format s = Return (pystr "decimal"))
    by now apply validate_ip_format_decimal.
  split; [exact Hfmt|]. split; [rewrite Hfmt; vm_compute; discriminate|].
  assert (Hbin : exists binary_ip, decimal_to_binary s = Return binary_ip).
  { rewrite decimal_to_binary_spec, Hl. cbn [Nat.eqb].
    apply find_none_forallb in Hall. rewrite Hall. eauto. }
  destruct Hbin as [binary_ip Hbin]. exists binary_ip. split; [exact Hbin|].
  unfold main_step. rewrite Hfmt. cbn [bind].
  change (str_eqb (pystr "decimal") (pystr "decimal")) with true. cbv iota.
  rewrite Hbin. reflexivity.
Qed.

Lemma binary_looking_is_decimal_witness :
  validate_ip_format (pystr "00000001.00000001.00000001.00000001")
  = Return (pystr "decimal")
  /\ validate_ip_format (pystr "00000001.00000001.00000001.00000001")
     <> Return (pystr "binary")
  /\ exists binary_ip,
       decimal_to_binary (pystr "00000001.00000001.00000001.00000001")
       = Return binary_ip
       /\ main_step (pystr "00000001.00000001.00000001.00000001")
          = Return [ 10%N :: pystr "Десятичная запись: "
                       ++ pystr "00000001.00000001.00000001.00000001";
                     pystr "Двоичная запись:   " ++ binary_ip ].
Proof.
  apply (binary_looking_is_decimal (pystr "00000001.00000001.00000001.00000001")).
  - vm_compute. reflexivity.
  - intros o Hin. vm_compute in Hin.
    destruct Hin as [<-|[<-|[<-|[<-|[]]]]];
      (split; [vm_compute; reflexivity | exists 1; split; [vm_compute; reflexivity | lia]]).
Defined.

(** C10: for every string of four dot-separated groups of exactly eight
    binary digits, converting it to decimal and back returns the string. *)
Theorem binary_round_trip (s : str) :
  well_formed_binary s = true ->
  (decimal_ip <- binary_to_decimal s ;; decimal_to_binary decimal_ip) = Return s.
Proof.
  unfold well_formed_binary. intros H. apply andb_prop in H.
  destruct H as [Hl Hb]. apply Nat.eqb_eq in Hl.
  destruct (length4 _ Hl) as (o1 & o2 & o3 & o4 & E).
  rewrite E in Hb. cbn [forallb] in Hb.
  apply andb_prop in Hb. destruct Hb as [H1 Hb].
  apply andb_prop in Hb. destruct Hb as [H2 Hb].
  apply andb_prop in Hb. destruct Hb as [H3 Hb].
  apply andb_prop in Hb. destruct Hb as [H4 _].
  destruct (binary_octet_value o1 H1) as (a & Ha & Ea & Ba).
  destruct (binary_octet_value o2 H2) as (b & Hb & Eb & Bb).
  destruct (binary_octet_value o3 H3) as (c & Hc & Ec & Bc).
  destruct (binary_octet_value o4 H4) as (d & Hd & Ed & Bd).
  rewrite (binary_to_decimal_octets s o1 o2 o3 o4 a b c d) by assumption.
  cbn [bind]. rewrite decimal_to_binary_dotted by assumption.
  cbn [map]. rewrite Ba, Bb, Bc, Bd, <- E. now rewrite join_split_dot.
Qed.

Lemma binary_round_trip_witness :
  (decimal_ip <- binary_to_decimal (pystr "01011101.10111011.01001000.00110000") ;;
   decimal_to_binary decimal_ip)
  = Return (pystr "01011101.10111011.01001000.00110000").
Proof.
  apply (binary_round_trip (pystr "01011101.10111011.01001000.00110000")).
  vm_compute. reflexivity.
Defined.

(** * Further properties of the two scripts *)

(** ** Counting the pieces of a split *)

Lemma length_split_dot (s : str) :
  length (split_dot s) = S (count_occ N.eq_dec s 46%N).
Proof.
  unfold split_dot. induction s as [|c s IH]; [reflexivity|].
  cbn [split count_occ].
  destruct (N.eqb_spec c 46) as [-> | Hc].
  - destruct (N.eq_dec 46 46) as [_|N]; [|contradiction]. cbn [length]. now rewrite IH.
  - destruct (N.eq_dec c 46) as [E|_]; [contradiction|].
    pose proof (split_not_nil 46%N s) as Hne.
    destruct (split 46%N s) as [|w ws]; [contradiction | exact IH].
Qed.

Lemma no_dot_count (x : str) : no_dot x = true -> count_occ N.eq_dec x 46%N = 0%nat.
Proof.
  unfold no_dot. induction x as [|c x IH]; [reflexivity|].
  cbn [forallb count_occ]. intros H. apply andb_prop in H. destruct H as [Hc Hx].
  apply negb_true_iff, N.eqb_neq in Hc.
  destruct (N.eq_dec c 46); [contradiction | auto].
Qed.

Lemma split_piece_no_dot (s o : str) : In o (split_dot s) -> no_dot o = true.
Proof.
  unfold split_dot. revert o. induction s as [|c s IH]; intros o Hin.
  - destruct Hin as [<- | []]. reflexivity.
  - cbn [split] in Hin. destruct (N.eqb_spec c 46) as [-> | Hc].
    + destruct Hin as [<- | Hin]; [reflexivity | auto].
    + pose proof (split_not_nil 46%N s) as Hne.
      destruct (split 46%N s) as [|w ws]; [contradiction|].
      destruct Hin as [<- | Hin].
      * unfold no_dot. cbn [forallb]. apply andb_true_intro. split.
        -- apply negb_true_iff, N.eqb_neq. exact Hc.
        -- apply (IH w). now left.
      * apply IH. now right.
Qed.

(** Every error message of the converters has exactly one dot outside the
    octet it quotes, so it splits into two pieces. *)
Lemma error_messages_split (o : str) :
  no_dot o = true ->
  length (split_dot err_four_octets) = 2%nat
  /\ length (split_dot (err_range o)) = 2%nat
  /\ length (split_dot (err_not_a_number o)) = 2%nat
  /\ length (split_dot (err_binary_octet o)) = 2%nat.
Proof.
  intros Ho. apply no_dot_count in Ho.
  unfold err_range, err_not_a_number, err_binary_octet.
  rewrite !length_split_dot, !count_occ_app. unfold char in *. rewrite Ho.
  repeat split; vm_compute; reflexivity.
Qed.

Lemma well_formed_binary_bits (a b c d : Z) :
  0 <= a <= 255 -> 0 <= b <= 255 -> 0 <= c <= 255 -> 0 <= d <= 255 ->
  well_formed_binary (join dot (map octet_bits [a; b; c; d])) = true.
Proof.
  intros Ha Hb Hc Hd. unfold well_formed_binary.
  rewrite split_bits by assumption. cbn [map length Nat.eqb forallb andb].
  rewrite (proj1 (octet_bits_int2 a Ha)), (proj1 (octet_bits_int2 b Hb)),
    (proj1 (octet_bits_int2 c Hc)), (proj1 (octet_bits_int2 d Hd)). reflexivity.
Qed.

(** ** The validators of the two scripts agree *)

(** X1: [validate_ip] of the analyser accepts exactly the strings that
    [validate_ip_format] of the converter calls ["decimal"]. *)
Theorem validators_agree (s : str) :
  validate_ip s = Return true <-> validate_ip_format s = Return (pystr "decimal").
Proof.
  rewrite validate_ip_spec, validate_ip_format_decimal.
  split; [intros [= H]; exact H | intros ->; reflexivity].
Qed.

(** ** What the converters return *)

(** X2: [decimal_to_binary] always returns, and what it returns is an
    address of four groups of eight binary digits exactly when its argument
    is a well-formed decimal address; an error message is never mistaken
    for a converted address. *)
Theorem decimal_to_binary_output (s : str) :
  exists r, decimal_to_binary s = Return r
            /\ well_formed_binary r = well_formed_decimal s.
Proof.
  destruct (well_formed_decimal s) eqn:Hwf.
  - destruct (well_formed_decimal_values s Hwf)
      as (o1 & o2 & o3 & o4 & a & b & c & d & _ & Hm & _ & Ha & Hb & Hc & Hd).
    rewrite (decimal_to_binary_values s a b c d) by assumption.
    eexists. split; [reflexivity|]. now apply well_formed_binary_bits.
  - rewrite decimal_to_binary_spec. unfold well_formed_decimal in Hwf.
    assert (Hbad : forall r, length (split_dot r) = 2%nat -> well_formed_binary r = false).
    { intros r Hr. unfold well_formed_binary. now rewrite Hr. }
    destruct (length (split_dot s) =? 4)%nat.
    + destruct (find (fun o => negb (is_decimal_octet o)) (split_dot s)) as [o|] eqn:F.
      * apply find_some in F. destruct F as [Hin _].
        apply split_piece_no_dot in Hin.
        destruct (error_messages_split o Hin) as (_ & H2 & H3 & _).
        eexists. split; [reflexivity|]. apply Hbad.
        unfold decimal_error. destruct (int o); assumption.
      * apply find_none_forallb in F. rewrite F in Hwf. discriminate.
    + eexists. split; [reflexivity|]. apply Hbad.
      apply (error_messages_split []). reflexivity.
Qed.

Lemma binary_to_decimal_well_formed (s : str) :
  well_formed_binary s = true ->
  exists a b c d,
    (0 <= a <= 255 /\ 0 <= b <= 255 /\ 0 <= c <= 255 /\ 0 <= d <= 255)
    /\ binary_to_decimal s = Return (join dot (map str_of_int [a; b; c; d])).
Proof.
  unfold well_formed_binary. intros H. apply andb_prop in H.
  destruct H as [Hl F]. apply Nat.eqb_eq in Hl.
  destruct (length4 _ Hl) as (o1 & o2 & o3 & o4 & E). rewrite E in F.
  cbn [forallb] in F.
  apply andb_prop in F. destruct F as [H1 F].
  apply andb_prop in F. destruct F as [H2 F].
  apply andb_prop in F. destruct F as [H3 F].
  apply andb_prop in F. destruct F as [H4 _].
  destruct (binary_octet_value o1 H1) as (a & Ha & Ea & _).
  destruct (binary_octet_value o2 H2) as (b & Hb & Eb & _).
  destruct (binary_octet_value o3 H3) as (c & Hc & Ec & _).
  destruct (binary_octet_value o4 H4) as (d & Hd & Ed & _).
  exists a, b, c, d. split; [tauto|].
  now apply (binary_to_decimal_octets s o1 o2 o3 o4).
Qed.

(** X3: [binary_to_decimal] always returns, and what it returns is a
    well-formed decimal address exactly when its argument is four groups of
    eight binary digits. *)
Theorem binary_to_decimal_output (s : str) :
  exists r, binary_to_decimal s = Return r
            /\ well_formed_decimal r = well_formed_binary s.
Proof.
  assert (Hbad : forall r, length (split_dot r) = 2%nat -> well_formed_decimal r = false).
  { intros r Hr. unfold well_formed_decimal. now rewrite Hr. }
  destruct (well_formed_binary s) eqn:Hwf.
  - destruct (binary_to_decimal_well_formed s Hwf)
      as (a & b & c & d & (Ha & Hb & Hc & Hd) & ->).
    eexists. split; [reflexivity|]. now apply well_formed_dotted.
  - rewrite binary_to_decimal_spec. unfold well_formed_binary in Hwf.
    destruct (length (split_dot s) =? 4)%nat.
    + destruct (find (fun o => negb (is_binary_octet o)) (split_dot s)) as [o|] eqn:F.
      * apply find_some in F. destruct F as [Hin _].
        eexists. split; [reflexivity|]. apply Hbad.
        apply error_messages_split. now apply (split_piece_no_dot s).
      * apply find_none_forallb in F. rewrite F in Hwf. discriminate.
    + eexists. split; [reflexivity|]. apply Hbad.
      apply (error_messages_split []). reflexivity.
Qed.


(** ** Masks for any prefix length *)




(** ** The network block as an interval of numbers *)

Lemma ip_number_range (a b c d : Z) :
  0 <= a <= 255 -> 0 <= b <= 255 -> 0 <= c <= 255 -> 0 <= d <= 255 ->
  0 <= ip_number a b c d < 2 ^ 32.
Proof.
  intros. unfold ip_number.
  change (2 ^ 24) with 16777216. change (2 ^ 16) with 65536.
  change (2 ^ 8) with 256. change (2 ^ 32) with 4294967296. lia.
Qed.

Lemma testbit_above_32 (n i : Z) : 0 <= n < 2 ^ 32 -> 32 <= i -> Z.testbit n i = false.
Proof.
  intros Hn Hi. rewrite <- (Z.mod_small n (2 ^ 32)) by assumption.
  apply Z.mod_pow2_bits_high. lia.
Qed.

(** Masking with [p] leading 1-bits clears the [32 - p] low bits. *)
Lemma land_prefix_mask (n p : Z) :
  0 <= n < 2 ^ 32 -> 0 <= p <= 32 ->
  Z.land n (prefix_mask p) = n - n mod 2 ^ (32 - p).
Proof.
  intros Hn Hp.
  assert (Hk : 0 < 2 ^ (32 - p)) by (apply Z.pow_pos_nonneg; lia).
  assert (E : n - n mod 2 ^ (32 - p) = Z.shiftl (Z.shiftr n (32 - p)) (32 - p)).
  { rewrite Z.shiftl_mul_pow2, Z.shiftr_div_pow2 by lia.
    pose proof (Z.div_mod n (2 ^ (32 - p))). lia. }
  rewrite E. apply Z.bits_inj'. intros i Hi.
  rewrite Z.land_spec, prefix_mask_bits, Z.shiftl_spec by lia.
  destruct (Z.leb_spec (32 - p) i) as [Hle | Hlt].
  - rewrite Z.shiftr_spec by lia. replace (i - (32 - p) + (32 - p)) with i by lia.
    destruct (Z.ltb_spec i 32) as [Hlo | Hhi]; cbn [andb].
    + apply andb_true_r.
    + rewrite andb_false_r. symmetry. now apply testbit_above_32.
  - rewrite (Z.testbit_neg_r _ (i - (32 - p))) by lia. cbn [andb].
    apply andb_false_r.
Qed.

(** Setting the low bits of a number whose low bits are clear adds them. *)
Lemma lor_host_bits (n p : Z) :
  0 <= p <= 32 ->
  Z.lor (n - n mod 2 ^ (32 - p)) (not32 (prefix_mask p))
  = n - n mod 2 ^ (32 - p) + 2 ^ (32 - p) - 1.
Proof.
  intros Hp. rewrite (not32_prefix_mask p Hp).
  assert (Hk : 0 < 2 ^ (32 - p)) by (apply Z.pow_pos_nonneg; lia).
  pose proof (Z.add_lor_land (n - n mod 2 ^ (32 - p)) (2 ^ (32 - p) - 1)) as Hadd.
  assert (Hdisj : Z.land (n - n mod 2 ^ (32 - p)) (2 ^ (32 - p) - 1) = 0).
  { replace (2 ^ (32 - p) - 1) with (Z.ones (32 - p)) by (rewrite Z.ones_equiv; lia).
    rewrite Z.land_ones by lia.
    pose proof (Z.div_mod n (2 ^ (32 - p))) as Hdm.
    replace (n - n mod 2 ^ (32 - p)) with (n / 2 ^ (32 - p) * 2 ^ (32 - p)) by lia.
    apply Z.mod_mul. lia. }
  lia.
Qed.

(** The aligned block of [2^(32-p)] numbers around [n]. *)
Lemma block_bounds (n p : Z) :
  0 <= n < 2 ^ 32 -> 0 <= p <= 32 ->
  let size := 2 ^ (32 - p) in
  let network := n - n mod size in
  let broadcast := network + size - 1 in
  network mod size = 0 /\ 0 <= network <= n /\ n <= broadcast < 2 ^ 32.
Proof.
  intros Hn Hp size network broadcast.
  assert (Hsize : 0 < size) by (apply Z.pow_pos_nonneg; lia).
  pose proof (Z.mod_pos_bound n size Hsize) as Hmod.
  pose proof (Z.div_mod n size ltac:(lia)) as Hdm.
  split.
  - unfold network. replace (n - n mod size) with (n / size * size) by lia.
    apply Z.mod_mul. lia.
  - assert (Hdiv : (size | 2 ^ 32)).
    { exists (2 ^ p). unfold size. rewrite <- Z.pow_add_r by lia. f_equal. lia. }
    destruct Hdiv as [q Hq].
    assert (Hlt : n / size < q).
    { apply Z.div_lt_upper_bound; [exact Hsize|].
      rewrite Z.mul_comm, <- Hq. apply Hn. }
    assert (Hmul : size * (n / size + 1) <= size * q)
      by (apply Z.mul_le_mono_nonneg_l; lia).
    pose proof (Z.mod_le n size ltac:(lia) Hsize) as Hle.
    unfold broadcast, network. lia.
Qed.

(** X6: for four octets from 0 to 255 and a prefix from 0 to 32,
    [get_network_range] returns, in dotted notation, the first and the last
    number of the aligned block of [2^(32-prefix)] addresses that holds the
    address: the network address is the address rounded down to a multiple
    of the block size, the broadcast address is the last one of the block. *)
Theorem get_network_range_block (s : str) (p a b c d : Z) :
  map int (split_dot s) = [Return a; Return b; Return c; Return d] ->
  0 <= a <= 255 -> 0 <= b <= 255 -> 0 <= c <= 255 -> 0 <= d <= 255 ->
  0 <= p <= 32 ->
  let ip := ip_number a b c d in
  let size := 2 ^ (32 - p) in
  let network := ip - ip mod size in
  let broadcast := network + size - 1 in
  get_network_range s p = Return (dotted_quad network, dotted_quad broadcast)
  /\ network mod size = 0
  /\ 0 <= network <= ip /\ ip <= broadcast < 2 ^ 32.
Proof.
  intros Hm Ha Hb Hc Hd Hp ip size network broadcast.
  pose proof (ip_number_range a b c d Ha Hb Hc Hd) as Hip. fold ip in Hip.
  split; [|exact (block_bounds ip p Hip Hp)].
  rewrite (get_network_range_prefix s p a b c d Hm Hp). cbv zeta. fold ip.
  rewrite (land_prefix_mask ip p Hip Hp).
  now rewrite (lor_host_bits ip p Hp).
Qed.

Lemma get_network_range_block_witness :
  let ip := ip_number 172 16 5 9 in
  let size := 2 ^ (32 - 12) in
  let network := ip - ip mod size in
  let broadcast := network + size - 1 in
  get_network_range (pystr "172.16.5.9") 12
  = Return (dotted_quad network, dotted_quad broadcast)
  /\ network mod size = 0
  /\ 0 <= network <= ip /\ ip <= broadcast < 2 ^ 32.
Proof.
  apply (get_network_range_block (pystr "172.16.5.9") 12 172 16 5 9);
    try lia.
  vm_compute. reflexivity.
Defined.

(** ** [get_network_range] on any string and prefix *)

Lemma map_outcome_int_cases (l : list str) :
  (exists o, In o l /\ int o = Raise ValueError
             /\ map_outcome int l = Raise ValueError)
  \/ (exists vs, map int l = map Return vs /\ map_outcome int l = Return vs).
Proof.
  induction l as [|o l IH].
  - right. exists []. split; reflexivity.
  - cbn [map_outcome]. destruct (int o) as [v|e] eqn:E.
    + cbn [bind]. destruct IH as [(o' & Hin & Eo & ->) | (vs & Hm & ->)].
      * left. exists o'. repeat split; [now right | assumption].
      * right. exists (v :: vs). cbn [map bind]. rewrite E, Hm. split; reflexivity.
    + pose proof (int_raises _ _ E) as ->. left. exists o.
      repeat split; [now left | assumption].
Qed.

Lemma octets_of_well_formed (n : Z) :
  well_formed_decimal (join dot (map str_of_int (octets_of n))) = true.
Proof.
  rewrite octets_of_div.
  apply well_formed_dotted;
    match goal with
    | |- 0 <= ?x mod 256 <= 255 => pose proof (Z.mod_pos_bound x 256); lia
    end.
Qed.

(** X7: how a call of [get_network_range] ends, for any string and any
    prefix.  An unreadable octet raises [ValueError]; otherwise fewer than
    four octets raise [IndexError]; otherwise a prefix above 32 raises
    [TypeError]; otherwise the call returns two addresses computed from the
    first four octets alone (further octets are ignored), and both are
    well-formed decimal addresses, whatever the octet values and the
    prefix. *)
Theorem get_network_range_outcomes (s : str) (p : Z) :
  (exists o, In o (split_dot s) /\ int o = Raise ValueError
             /\ get_network_range s p = Raise ValueError)
  \/ (exists vs, map int (split_dot s) = map Return vs
                 /\ (length vs < 4)%nat
                 /\ get_network_range s p = Raise IndexError)
  \/ (exists a b c d rest,
        map int (split_dot s) = map Return (a :: b :: c :: d :: rest)
        /\ (32 < p /\ get_network_range s p = Raise TypeError
            \/ p <= 32
               /\ let ip_int := Z.shiftl a 24 + Z.shiftl b 16 + Z.shiftl c 8 + d in
                  let network_int :=
                    Z.land ip_int ((2 ^ 32 - 1) - (2 ^ (32 - p) - 1)) in
                  let broadcast_int := Z.lor network_int (2 ^ (32 - p) - 1) in
                  let network := join dot (map str_of_int (octets_of network_int)) in
                  let broadcast :=
                    join dot (map str_of_int (octets_of broadcast_int)) in
                  get_network_range s p = Return (network, broadcast)
                  /\ well_formed_decimal network = true
                  /\ well_formed_decimal broadcast = true)).
Proof.
  unfold get_network_range.
  destruct (map_outcome_int_cases (split_dot s))
    as [(o & Hin & Eo & ->) | (vs & Hm & ->)].
  - left. exists o. repeat split; assumption.
  - right. cbn [bind].
    destruct vs as [|a [|b [|c [|d rest]]]];
      try (left; eexists; split; [exact Hm|]; split; [cbn [length]; lia | reflexivity]).
    right. exists a, b, c, d, rest. split; [exact Hm|].
    cbn [index nth_error bind].
    destruct (Z.ltb_spec 32 p) as [Hgt | Hle]; [left; split; [exact Hgt | reflexivity]|].
    right. split; [exact Hle|]. cbv zeta.
    split; [reflexivity|]. split; apply octets_of_well_formed.
Qed.

(** X8: the two strings [get_network_range] returns are always accepted by
    [validate_ip], also when the octets of its argument are out of range or
    the prefix is negative. *)
Theorem get_network_range_valid (s network broadcast : str) (p : Z) :
  get_network_range s p = Return (network, broadcast) ->
  validate_ip network = Return true /\ validate_ip broadcast = Return true.
Proof.
  intros H.
  destruct (get_network_range_outcomes s p)
    as [(o & _ & _ & E) | [(vs & _ & _ & E) | (a & b & c & d & rest & _ & [[_ E] | [_ E]])]].
  - rewrite E in H. discriminate H.
  - rewrite E in H. discriminate H.
  - rewrite E in H. discriminate H.
  - cbv zeta in E. destruct E as (E & Hn & Hb).
    match type of E with
    | _ = Return (?x, ?y) => set (n := x) in *; set (b' := y) in *
    end.
    clearbody n b'. rewrite E in H. injection H as <- <-.
    rewrite !validate_ip_spec, Hn, Hb. split; reflexivity.
Qed.

Lemma get_network_range_valid_witness :
  validate_ip (pystr "44.0.0.0") = Return true
  /\ validate_ip (pystr "44.255.255.255") = Return true.
Proof.
  apply (get_network_range_valid (pystr "300.1.2.3") _ _ 8).
  vm_compute. reflexivity.
Defined.

(** ** Classes of arbitrary strings *)

(** X9: [determine_ip_class] looks at nothing but the text before the first
    dot, and does no validation of its own: it never raises [IndexError], it
    raises [ValueError] exactly when that text is no number, and a number
    outside 1..255 (zero, negative, 256 or more) gets the class
    ["Неизвестный"] with prefix 0. *)
Theorem determine_ip_class_first_piece (s : str) :
  exists o rest,
    split_dot s = o :: rest
    /\ determine_ip_class s = determine_ip_class o
    /\ (int o = Raise ValueError /\ determine_ip_class s = Raise ValueError
        \/ exists v cls p,
             int o = Return v
             /\ determine_ip_class s = Return (cls, p)
             /\ ((v <= 0 \/ 256 <= v) /\ cls = class_unknown /\ p = 0
                 \/ 1 <= v <= 255 /\ In cls legacy_classes)).
Proof.
  pose proof (split_not_nil 46%N s) as Hne. fold (split_dot s) in Hne.
  destruct (split_dot s) as [|o rest] eqn:E; [contradiction|].
  exists o, rest. split; [reflexivity|].
  assert (Ho : split_dot o = [o]).
  { apply split_no_dot, (split_piece_no_dot s). rewrite E. now left. }
  unfold determine_ip_class. rewrite E, Ho. cbn [index nth_error bind].
  split; [reflexivity|].
  destruct (int o) as [v|e] eqn:Ev.
  - right. exists v. cbn [bind]. unfold legacy_classes.
    repeat match goal with
           | |- context [if ?b then _ else _] => destruct b eqn:?
           end;
      eexists _, _; (split; [reflexivity|]); (split; [reflexivity|]);
      first [ left; split; [lia | split; reflexivity]
            | right; split; [lia | cbn [In]; auto 10] ].
  - pose proof (int_raises _ _ Ev) as ->. left. split; reflexivity.
Qed.

(** Refutes an equation between two different class names, or the
    membership of a class name in a list of other names. *)
Ltac absurd_class H :=
  vm_compute in H;
  repeat match type of H with
         | _ \/ _ => destruct H as [H | H]; [discriminate H|]
         end;
  first [discriminate H | contradiction].

(** X10: on an address accepted by [validate_ip] the class follows the
    leading bits of the first octet, as the comments of
    [determine_ip_class] say: [10] is B, [110] is C, [1110] is D, [1111] is
    E, and a leading [0] is A, except 127 (Loopback) and 0 (unknown). *)
Theorem determine_ip_class_leading_bits (s : str) :
  validate_ip s = Return true ->
  exists v cls p,
    (octet <- index (split_dot s) 0 ;; int octet) = Return v
    /\ determine_ip_class s = Return (cls, p)
    /\ (v / 128 = 0 <->
        In cls [pystr "A"; pystr "Loopback"; class_unknown])
    /\ (cls = pystr "Loopback" <-> v = 127)
    /\ (cls = class_unknown <-> v = 0)
    /\ (v / 64 = 2 <-> cls = pystr "B")
    /\ (v / 32 = 6 <-> cls = pystr "C")
    /\ (v / 16 = 14 <-> cls = pystr "D")
    /\ (v / 16 = 15 <-> cls = pystr "E").
Proof.
  rewrite validate_ip_spec. intros [= Hwf].
  destruct (well_formed_decimal_values s Hwf)
    as (o1 & o2 & o3 & o4 & a & b & c & d & E & _ & E1 & Ha & _).
  destruct (determine_ip_class_cases s o1 _ a E E1 Ha) as (cls & p & Hcls & Hcase).
  exists a, cls, p. rewrite E. cbn [index nth_error bind].
  split; [exact E1|]. split; [exact Hcls|].
  destruct Hcase as [H|[H|[H|[H|[H|[H|H]]]]]]; destruct H as (Hr & -> & _);
    repeat split; intros H;
    first [ solve [Z.div_mod_to_equations; lia] | reflexivity
          | solve [cbn [In]; auto 10]
          | exfalso; solve [Z.div_mod_to_equations; lia]
          | exfalso; absurd_class H ].
Qed.

Lemma determine_ip_class_leading_bits_witness :
  exists v cls p,
    (octet <- index (split_dot (pystr "192.168.1.1")) 0 ;; int octet) = Return v
    /\ determine_ip_class (pystr "192.168.1.1") = Return (cls, p)
    /\ (v / 128 = 0 <->
        In cls [pystr "A"; pystr "Loopback"; class_unknown])
    /\ (cls = pystr "Loopback" <-> v = 127)
    /\ (cls = class_unknown <-> v = 0)
    /\ (v / 64 = 2 <-> cls = pystr "B")
    /\ (v / 32 = 6 <-> cls = pystr "C")
    /\ (v / 16 = 14 <-> cls = pystr "D")
    /\ (v / 16 = 15 <-> cls = pystr "E").
Proof.
  apply (determine_ip_class_leading_bits (pystr "192.168.1.1")).
  vm_compute. reflexivity.
Defined.

(** ** The block that [analyze_ip] reports *)

Lemma class_prefix_range (cls : str) (p : Z) :
  class_prefix cls = Some p -> p = 8 \/ p = 16 \/ p = 24.
Proof.
  unfold class_prefix. intros H.
  repeat match type of H with
         | (if ?b then _ else _) = _ => destruct b
         end; injection H as <- || discriminate H; auto.
Qed.

(** X11: for a valid address of class A, B, C or Loopback, the network and
    broadcast addresses in the result of [analyze_ip] bound an aligned block
    of [2^(32-prefix)] numbers that contains the address, and the reported
    number of usable hosts is the count of addresses strictly between the
    two. *)
Theorem analyze_ip_block (s cls : str) (p : Z) :
  validate_ip s = Return true ->
  determine_ip_class s = Return (cls, p) ->
  In cls [pystr "A"; pystr "B"; pystr "C"; pystr "Loopback"] ->
  exists a b c d res network broadcast,
    map int (split_dot s) = [Return a; Return b; Return c; Return d]
    /\ analyze_ip s = Return res
    /\ dict_get res (pystr "network_address") = Some (VStr (dotted_quad network))
    /\ dict_get res (pystr "broadcast_address")
       = Some (VStr (dotted_quad broadcast))
    /\ dict_get res (pystr "usable_hosts") = Some (VInt (broadcast - network - 1))
    /\ network mod 2 ^ (32 - p) = 0
    /\ broadcast - network + 1 = 2 ^ (32 - p)
    /\ 0 <= network <= ip_number a b c d
    /\ ip_number a b c d <= broadcast < 2 ^ 32.
Proof.
  rewrite validate_ip_spec. intros [= Hwf] Hdet Hin.
  destruct (analyze_ip_well_formed s Hwf)
    as (a & b & c & d & cls' & p' & Hm & Hcls & Hres).
  rewrite Hdet in Hcls. injection Hcls as <- <-.
  destruct Hres as [[Hspecial _] | (_ & Hp & Hr)].
  - exfalso. cbn [In] in Hin.
    destruct Hin as [<-|[<-|[<-|[<-|[]]]]]; absurd_class Hspecial.
  - assert (Hrange : 0 <= p <= 32)
      by (destruct (class_prefix_range cls p Hp) as [-> | [-> | ->]]; lia).
    assert (Hip : 0 <= ip_number a b c d < 2 ^ 32).
    { destruct (well_formed_decimal_values s Hwf)
        as (o1 & o2 & o3 & o4 & a' & b' & c' & d' & _ & Hm' & _ & Ha & Hb & Hc & Hd).
      rewrite Hm in Hm'. injection Hm' as -> -> -> ->.
      now apply ip_number_range. }
    destruct (block_bounds _ p Hip Hrange) as (Hal & Hlo & Hhi).
    exists a, b, c, d, (network_result s cls p (ip_number a b c d)).
    eexists _, _. split; [exact Hm|]. split; [exact Hr|].
    unfold network_result.
    rewrite (land_prefix_mask _ p Hip Hrange), (lor_host_bits _ p Hrange).
    split; [lookup; reflexivity|]. split; [lookup; reflexivity|].
    split; [lookup; do 2 f_equal; lia|].
    split; [exact Hal|]. split; [lia|]. split; [exact Hlo | exact Hhi].
Qed.

Lemma analyze_ip_block_witness :
  exists a b c d res network broadcast,
    map int (split_dot (pystr "172.16.5.9"))
    = [Return a; Return b; Return c; Return d]
    /\ analyze_ip (pystr "172.16.5.9") = Return res
    /\ dict_get res (pystr "network_address") = Some (VStr (dotted_quad network))
    /\ dict_get res (pystr "broadcast_address")
       = Some (VStr (dotted_quad broadcast))
    /\ dict_get res (pystr "usable_hosts") = Some (VInt (broadcast - network - 1))
    /\ network mod 2 ^ (32 - 16) = 0
    /\ broadcast - network + 1 = 2 ^ (32 - 16)
    /\ 0 <= network <= ip_number a b c d
    /\ ip_number a b c d <= broadcast < 2 ^ 32.
Proof.
  apply (analyze_ip_block (pystr "172.16.5.9") (pystr "B") 16).
  - vm_compute. reflexivity.
  - vm_compute. reflexivity.
  - cbn [In]. right. left. reflexivity.
Defined.

(** ** Displaying a result *)

Lemma print_fields_complete (d : dict) (fields : list (str * str)) :
  forall out,
    snd (print_fields d fields out) = None
    <-> forallb (fun f => dict_has d (snd f)) fields = true.
Proof.
  induction fields as [|[label key] fields IH]; intros out; cbn [print_fields forallb snd].
  - tauto.
  - unfold dict_has at 1. destruct (dict_get d key) as [v|].
    + rewrite IH. cbn [andb]. tauto.
    + cbn [snd andb]. split; discriminate.
Qed.

(** X12: when [display_ip_info] ends without [KeyError].  A dictionary
    with the key ["error"] is always displayed; otherwise one with the key
    ["note"] needs ["ip_address"] and ["ip_class"]; otherwise all seven keys
    of a full result are needed. *)
Theorem display_ip_info_key_error (d : dict) :
  snd (display_ip_info d) = None
  <-> dict_has d (pystr "error") = true
      \/ (dict_has d (pystr "note") = true
          /\ dict_has d (pystr "ip_address") = true
          /\ dict_has d (pystr "ip_class") = true)
      \/ forallb (dict_has d)
           [ pystr "ip_address"; pystr "ip_class"; pystr "network_prefix";
             pystr "subnet_mask"; pystr "network_address";
             pystr "broadcast_address"; pystr "usable_hosts" ] = true.
Proof.
  unfold display_ip_info.
  unfold dict_has at 1. destruct (dict_get d (pystr "error")) as [e|] eqn:Ee.
  - cbn [snd]. tauto.
  - unfold dict_has at 1. destruct (dict_get d (pystr "note")) as [n|] eqn:En.
    + rewrite print_fields_complete. cbn [forallb snd].
      unfold dict_has at 3. rewrite En. rewrite andb_true_r.
      split.
      * intros H. apply andb_prop in H. right. left. tauto.
      * intros [H | [(_ & H1 & H2) | H]]; [discriminate H | now rewrite H1, H2 |].
        cbn [forallb] in H. apply andb_prop in H. destruct H as [H1 H].
        apply andb_prop in H. destruct H as [H2 _]. now rewrite H1, H2.
    + match goal with
      | |- context [print_fields d ?f ?o] =>
          pose proof (print_fields_complete d f o) as Hc;
          destruct (print_fields d f o) as [out' [k|]]
      end; cbn [snd forallb] in *.
      * split; [discriminate|].
        intros [H | [(H & _) | H]]; try discriminate H.
        apply Hc in H. discriminate H.
      * split; [|reflexivity]. intros _. right. right.
        now apply Hc.
Qed.

Lemma display_error (e : value) (rest : dict) :
  display_ip_info ((pystr "error", e) :: rest)
  = ([10%N :: separator; pystr "Ошибка: " ++ format_value e], None).
Proof. reflexivity. Qed.

Lemma display_note (v1 v2 v3 : value) :
  display_ip_info
    [(pystr "ip_address", v1); (pystr "ip_class", v2); (pystr "note", v3)]
  = ([ 10%N :: separator;
       pystr "IP-адрес: " ++ format_value v1;
       pystr "Класс IP: " ++ format_value v2;
       pystr "Примечание: " ++ format_value v3 ], None).
Proof. vm_compute. reflexivity. Qed.

Lemma display_network (v1 v2 v3 v4 v5 v6 v7 : value) :
  display_ip_info
    [ (pystr "ip_address", v1); (pystr "ip_class", v2);
      (pystr "network_prefix", v3); (pystr "subnet_mask", v4);
      (pystr "network_address", v5); (pystr "broadcast_address", v6);
      (pystr "usable_hosts", v7) ]
  = ([ 10%N :: separator;
       pystr "IP-адрес:              " ++ format_value v1;
       pystr "Класс IP:              " ++ format_value v2;
       pystr "Префикс сети:          /" ++ format_value v3;
       pystr "Маска подсети:         " ++ format_value v4;
       pystr "Начальный адрес сети:  " ++ format_value v5;
       pystr "Конечный адрес сети:   " ++ format_value v6;
       pystr "Количество хостов:     " ++ format_value v7;
       separator ], None).
Proof. vm_compute. reflexivity. Qed.

(** X13: [display_ip_info(analyze_ip(ip))], the body of both loops of
    [main], never raises, for any string: every key the display reads is in
    the dictionary the analysis built.  It prints the error line for a
    string that is no valid address, the note for the classes D, E and
    unknown, and otherwise the seven fields between two separators. *)
Theorem analyze_and_display_complete (s : str) :
  (well_formed_decimal s = false
   /\ analyze_and_display s
      = Return ([ 10%N :: separator;
                  pystr "Ошибка: Неверный формат IP-адреса" ], None))
  \/ (well_formed_decimal s = true
      /\ exists a b c d cls p,
           map int (split_dot s) = [Return a; Return b; Return c; Return d]
           /\ determine_ip_class s = Return (cls, p)
           /\ (In cls [pystr "D"; pystr "E"; class_unknown]
               /\ analyze_and_display s
                  = Return
                      ([ 10%N :: separator;
                         pystr "IP-адрес: " ++ s;
                         pystr "Класс IP: " ++ cls;
                         pystr "Примечание: "
                         ++ pystr "Для IP-адресов класса " ++ cls
                         ++ pystr " не применяется стандартная маска подсети" ],
                       None)
               \/ In cls [pystr "A"; pystr "B"; pystr "C"; pystr "Loopback"]
                  /\ let network := Z.land (ip_number a b c d) (prefix_mask p) in
                     let broadcast := Z.lor network (not32 (prefix_mask p)) in
                     analyze_and_display s
                     = Return
                         ([ 10%N :: separator;
                            pystr "IP-адрес:              " ++ s;
                            pystr "Класс IP:              " ++ cls;
                            pystr "Префикс сети:          /" ++ str_of_int p;
                            pystr "Маска подсети:         "
                            ++ dotted_quad (prefix_mask p);
                            pystr "Начальный адрес сети:  " ++ dotted_quad network;
                            pystr "Конечный адрес сети:   " ++ dotted_quad broadcast;
                            pystr "Количество хостов:     "
                            ++ str_of_int (2 ^ (32 - p) - 2);
                            separator ], None))).
Proof.
  unfold analyze_and_display.
  destruct (well_formed_decimal s) eqn:Hwf.
  - right. split; [reflexivity|].
    destruct (analyze_ip_well_formed s Hwf)
      as (a & b & c & d & cls & p & Hm & Hcls & [[Hin Hr] | (Hin & _ & Hr)]);
      exists a, b, c, d, cls, p; (split; [exact Hm|]); (split; [exact Hcls|]);
      rewrite Hr; cbn [bind].
    + left. split; [exact Hin|]. unfold note_result.
      rewrite display_note. reflexivity.
    + right. split; [exact Hin|]. unfold network_result. cbv zeta.
      rewrite display_network. reflexivity.
  - left. split; [reflexivity|]. unfold analyze_ip.
    rewrite validate_ip_spec, Hwf. cbn [bind negb]. unfold invalid_format.
    rewrite display_error. vm_compute. reflexivity.
Qed.

(** ** Analysing the network address again *)

Lemma determine_ip_class_same_first (s1 s2 o1 o2 : str) (r1 r2 : list str) (v : Z) :
  split_dot s1 = o1 :: r1 -> split_dot s2 = o2 :: r2 ->
  int o1 = Return v -> int o2 = Return v ->
  determine_ip_class s1 = determine_ip_class s2.
Proof.
  intros E1 E2 H1 H2. unfold determine_ip_class.
  rewrite E1, E2. cbn [index nth_error bind]. now rewrite H1, H2.
Qed.

Lemma dotted_quad_octets (n : Z) :
  0 <= n < 2 ^ 32 ->
  let a := n / 2 ^ 24 mod 256 in
  let b := n / 2 ^ 16 mod 256 in
  let c := n / 2 ^ 8 mod 256 in
  let d := n mod 256 in
  split_dot (dotted_quad n) = [str_of_int a; str_of_int b; str_of_int c; str_of_int d]
  /\ map int (split_dot (dotted_quad n)) = [Return a; Return b; Return c; Return d]
  /\ well_formed_decimal (dotted_quad n) = true
  /\ ip_number a b c d = n.
Proof.
  intros Hn a b c d.
  assert (Ha : 0 <= a <= 255) by (pose proof (Z.mod_pos_bound (n / 2 ^ 24) 256); lia).
  assert (Hb : 0 <= b <= 255) by (pose proof (Z.mod_pos_bound (n / 2 ^ 16) 256); lia).
  assert (Hc : 0 <= c <= 255) by (pose proof (Z.mod_pos_bound (n / 2 ^ 8) 256); lia).
  assert (Hd : 0 <= d <= 255) by (pose proof (Z.mod_pos_bound n 256); lia).
  assert (Hs : split_dot (dotted_quad n)
               = [str_of_int a; str_of_int b; str_of_int c; str_of_int d]).
  { unfold dotted_quad. fold a b c d. apply split_dotted; lia. }
  split; [exact Hs|]. split; [|split].
  - rewrite Hs. cbn [map]. now rewrite !int_str_of_int by lia.
  - unfold dotted_quad. fold a b c d. now apply well_formed_dotted.
  - unfold ip_number, a, b, c, d.
    change (2 ^ 24) with 16777216. change (2 ^ 16) with 65536.
    change (2 ^ 8) with 256. change (2 ^ 32) with 4294967296 in Hn.
    Z.div_mod_to_equations. lia.
Qed.

Lemma network_first_octet (a b c d p : Z) :
  0 <= a <= 255 -> 0 <= b <= 255 -> 0 <= c <= 255 -> 0 <= d <= 255 ->
  p = 8 \/ p = 16 \/ p = 24 ->
  let ip := ip_number a b c d in
  (ip - ip mod 2 ^ (32 - p)) / 2 ^ 24 mod 256 = a.
Proof.
  intros Ha Hb Hc Hd Hp ip. unfold ip, ip_number.
  change (2 ^ 24) with 16777216. change (2 ^ 16) with 65536.
  change (2 ^ 8) with 256.
  destruct Hp as [-> | [-> | ->]].
  - change (2 ^ (32 - 8)) with 16777216. Z.div_mod_to_equations. lia.
  - change (2 ^ (32 - 16)) with 65536. Z.div_mod_to_equations. lia.
  - change (2 ^ (32 - 24)) with 256. Z.div_mod_to_equations. lia.
Qed.

(** X14: the network address that [analyze_ip] reports for a valid address
    of class A, B, C or Loopback is itself a valid address, and analysing it
    gives the same class, prefix, mask, network address, broadcast address
    and host count. *)
Theorem analyze_ip_network_again (s cls : str) (p : Z) :
  validate_ip s = Return true ->
  determine_ip_class s = Return (cls, p) ->
  In cls [pystr "A"; pystr "B"; pystr "C"; pystr "Loopback"] ->
  exists res network_address res',
    analyze_ip s = Return res
    /\ dict_get res (pystr "network_address") = Some (VStr network_address)
    /\ validate_ip network_address = Return true
    /\ analyze_ip network_address = Return res'
    /\ Forall (fun key => dict_get res' key = dict_get res key)
         [ pystr "ip_class"; pystr "network_prefix"; pystr "subnet_mask";
           pystr "network_address"; pystr "broadcast_address";
           pystr "usable_hosts" ].
Proof.
  rewrite validate_ip_spec. intros [= Hwf] Hdet Hin.
  destruct (well_formed_decimal_values s Hwf)
    as (o1 & o2 & o3 & o4 & a & b & c & d & E & Hm & E1 & Ha & Hb & Hc & Hd).
  destruct (analyze_ip_well_formed s Hwf)
    as (a' & b' & c' & d' & cls' & p' & Hm' & Hcls & Hres).
  rewrite Hm in Hm'. injection Hm' as <- <- <- <-.
  rewrite Hdet in Hcls. injection Hcls as <- <-.
  destruct Hres as [[Hspecial _] | (_ & Hp & Hr)].
  { exfalso. cbn [In] in Hin.
    destruct Hin as [<-|[<-|[<-|[<-|[]]]]]; absurd_class Hspecial. }
  pose proof (class_prefix_range cls p Hp) as Hp3.
  assert (Hrange : 0 <= p <= 32) by lia.
  pose proof (ip_number_range a b c d Ha Hb Hc Hd) as Hip.
  set (ip := ip_number a b c d) in *.
  pose proof (land_prefix_mask ip p Hip Hrange) as Hland.
  destruct (block_bounds ip p Hip Hrange) as (_ & Hlo & Hhi).
  set (n := Z.land ip (prefix_mask p)) in *.
  assert (Hn : 0 <= n < 2 ^ 32) by (rewrite Hland; lia).
  destruct (dotted_quad_octets n Hn) as (Hs & Hmn & Hwfn & Hnum).
  assert (Hfirst : n / 2 ^ 24 mod 256 = a).
  { rewrite Hland. now apply network_first_octet. }
  assert (Hdet' : determine_ip_class (dotted_quad n) = Return (cls, p)).
  { rewrite <- Hdet. symmetry.
    apply (determine_ip_class_same_first s (dotted_quad n) _ _ _ _ a E Hs E1).
    rewrite Hfirst. apply int_str_of_int. lia. }
  destruct (analyze_ip_well_formed (dotted_quad n) Hwfn)
    as (a2 & b2 & c2 & d2 & cls2 & p2 & Hm2 & Hcls2 & Hres2).
  rewrite Hmn in Hm2. injection Hm2 as <- <- <- <-.
  rewrite Hdet' in Hcls2. injection Hcls2 as <- <-.
  destruct Hres2 as [[Hspecial _] | (_ & _ & Hr2)].
  { exfalso. cbn [In] in Hin.
    destruct Hin as [<-|[<-|[<-|[<-|[]]]]]; absurd_class Hspecial. }
  match type of Hr2 with
  | context [network_result _ _ _ ?x] =>
      replace x with n in Hr2 by (symmetry; exact Hnum)
  end.
  exists (network_result s cls p ip), (dotted_quad n),
    (network_result (dotted_quad n) cls p n).
  split; [exact Hr|]. split; [unfold network_result; lookup; reflexivity|].
  split; [now rewrite validate_ip_spec, Hwfn|]. split; [exact Hr2|].
  assert (Hidem : Z.land n (prefix_mask p) = n).
  { unfold n. now rewrite <- Z.land_assoc, Z.land_diag. }
  unfold network_result. cbv zeta. rewrite Hidem. fold n.
  repeat constructor; lookup; symmetry; lookup; reflexivity.
Qed.

Lemma analyze_ip_network_again_witness :
  exists res network_address res',
    analyze_ip (pystr "192.168.1.77") = Return res
    /\ dict_get res (pystr "network_address") = Some (VStr network_address)
    /\ validate_ip network_address = Return true
    /\ analyze_ip network_address = Return res'
    /\ Forall (fun key => dict_get res' key = dict_get res key)
         [ pystr "ip_class"; pystr "network_prefix"; pystr "subnet_mask";
           pystr "network_address"; pystr "broadcast_address";
           pystr "usable_hosts" ].
Proof.
  apply (analyze_ip_network_again (pystr "192.168.1.77") (pystr "C") 24).
  - vm_compute. reflexivity.
  - vm_compute. reflexivity.
  - cbn [In]. right. right. left. reflexivity.
Defined.
